(** * direnv: configuration loading and environment revert (config.go)

    A shallow embedding of [config.go]: the [Config] record, [LoadConfig],
    [AllowDir], [LoadedRC] and [Revert], together with the parts of the Go
    standard library and of the sibling files of the package they call.

    Go maps are reference values, so environments live in a store of map
    objects and Go's [Env] is a (possibly nil) reference into it, here
    [env_ref].  The operating system, the TOML decoder and the other
    collaborators that the file only calls are gathered in the record
    [Sys]. *)

From Stdlib Require Import ZArith Ascii String.
From stdpp Require Import gmap strings list fin_maps.

(** ** Go strings *)

Module GoString.

(** [s[i:j]] *)
Definition slice (s : string) (i j : nat) : string := String.substring i (j - i) s.

(** [s[i:]] *)
Definition slice_from (s : string) (i : nat) : string :=
  slice s i (String.length s).

(** [strings.HasSuffix]: [len(s) >= len(suffix) && s[len(s)-len(suffix):] == suffix] *)
Definition HasSuffix (s suffix : string) : bool :=
  (String.length suffix <=? String.length s)%nat
  && String.eqb (slice_from s (String.length s - String.length suffix)) suffix.

(** [strings.Replace(s, old, new, -1)] for a one-byte [old] and [new]. *)
Fixpoint ReplaceByte (s : string) (old new : ascii) : string :=
  match s with
  | EmptyString => EmptyString
  | String c r =>
      String (if Ascii.eqb c old then new else c) (ReplaceByte r old new)
  end.

(** [strings.Split(s, "/")] *)
Fixpoint SplitSlash (s : string) : list string :=
  match s with
  | EmptyString => [EmptyString]
  | String c r =>
      if Ascii.eqb c "/"%char then EmptyString :: SplitSlash r
      else match SplitSlash r with
           | x :: xs => String c x :: xs
           | [] => [String c EmptyString]
           end
  end.

(** [strings.Join(elems, "/")] *)
Fixpoint JoinSlash (elems : list string) : string :=
  match elems with
  | [] => ""
  | [x] => x
  | x :: rest => x +:+ "/" +:+ JoinSlash rest
  end.

End GoString.

(** ** path/filepath on Unix

    [Clean] follows the rules of Go's [filepath.Clean], applied element by
    element: empty and [.] elements are dropped, a [..] element removes the
    element before it, a [..] that begins a rooted path is dropped, and the
    empty result becomes [.]. *)

Module filepath.
Import GoString.

(** One iteration of the loop of [Clean]; [out] is the output so far, last
    element first. *)
Definition clean_elem (rooted : bool) (out : list string) (e : string)
  : list string :=
  if String.eqb e "" then out
  else if String.eqb e "." then out
  else if String.eqb e ".." then
    match out with
    | top :: rest =>
        if String.eqb top ".." then (if rooted then out else e :: out)
        else rest
    | [] => if rooted then [] else [e]
    end
  else e :: out.

Definition Clean (path : string) : string :=
  match path with
  | EmptyString => "."
  | String c _ =>
      let rooted := Ascii.eqb c "/"%char in
      let out := fold_left (clean_elem rooted) (SplitSlash path) [] in
      let body := JoinSlash (rev out) in
      if rooted then "/" +:+ body
      else if String.eqb body "" then "." else body
  end.

(** [filepath.Join(a, b)]: empty leading elements are skipped, the rest is
    joined with the separator and cleaned. *)
Definition Join (a b : string) : string :=
  if String.eqb a "" then
    if String.eqb b "" then "" else Clean b
  else Clean (a +:+ "/" +:+ b).

End filepath.

(** ** Environments

    Go's [Env] is [map[string]string], a reference to a map object.  The
    store maps locations to the contents of the map objects; [None] is the
    nil map. *)

Abbreviation loc := positive.

Definition env_ref := option loc.

(** The messages handed to the logger, with their level. *)
Inductive level := LevelError | LevelDebug.

Record state := State {
  heap : gmap loc (gmap string string);
  logged : list (level * string);
}.

Definition M (A : Type) : Type := state → A * state.

Global Instance M_ret : MRet M := λ A a σ, (a, σ).
Global Instance M_bind : MBind M :=
  λ A B f m σ, let '(a, σ') := m σ in f a σ'.

(** The contents of the map object behind a reference; reading through the
    nil map finds nothing. *)
Definition contents (h : gmap loc (gmap string string)) (e : env_ref)
  : gmap string string :=
  match e with
  | Some l => default ∅ (h !! l)
  | None => ∅
  end.

Definition deref (e : env_ref) : M (gmap string string) :=
  λ σ, (contents (heap σ) e, σ).

(** [make(Env)] followed by filling the new map with [m]. *)
Definition alloc (m : gmap string string) : M env_ref :=
  λ σ, let l := fresh (dom (heap σ)) in
       (Some l, State (<[l := m]> (heap σ)) (logged σ)).

(** [env[key]]: the zero value [""] when the key is absent. *)
Definition index (e : env_ref) (key : string) : M string :=
  m ← deref e; mret (default "" (m !! key)).

(** Modelled from the spec: [Env.Fetch] lives in env.go; the spec gives the
    variable a default that applies when it is unset. *)
Definition Fetch (e : env_ref) (key def : string) : M string :=
  m ← deref e; mret (default def (m !! key)).

(** Modelled from the spec: [Env.Copy] lives in env.go; "returns a copy",
    a new snapshot with the same bindings. *)
Definition Copy (e : env_ref) : M env_ref :=
  m ← deref e; alloc m.

(** [logError] and [logDebug] are defined outside config.go; all that is
    recorded of them is the message they are given. *)
Definition logError (msg : string) : M unit :=
  λ σ, (tt, State (heap σ) (logged σ ++ [(LevelError, msg)])).

Definition logDebug (msg : string) : M unit :=
  λ σ, (tt, State (heap σ) (logged σ ++ [(LevelDebug, msg)])).

(** Modelled from the spec: the names of the environment variables are
    constants declared outside config.go; section 6 of the spec lists them. *)
Definition DIRENV_CONFIG := "DIRENV_CONFIG".
Definition DIRENV_BASH := "DIRENV_BASH".
Definition DIRENV_DIR := "DIRENV_DIR".
Definition DIRENV_WATCHES := "DIRENV_WATCHES".
Definition DIRENV_DIFF := "DIRENV_DIFF".

(** ** EnvDiff *)

Module EnvDiff.

(** Modelled from the spec: env_diff.go is not part of the sources at
    hand.  "A mapping from variable name to (old value or absent, new
    value or absent)". *)
Abbreviation t := (gmap string (option string * option string)).

(** Modelled from the spec: "for every key present in either snapshot,
    record (old,new) only if they differ; keys unchanged are omitted". *)
Definition Compute (before after : gmap string string) : t :=
  merge (λ o n, if decide (o = n) then None else Some (o, n)) before after.

(** Modelled from the spec: "swaps old/new in every entry". *)
Definition Reverse (d : t) : t := (λ e, (e.2, e.1)) <$> d.

(** Modelled from the spec: "for each entry, if new is absent, delete the
    key from env; otherwise set it to new; all keys not mentioned pass
    through unchanged". *)
Definition apply_entry (key : string) (e : option string * option string)
    (env : gmap string string) : gmap string string :=
  match e.2 with
  | None => delete key env
  | Some v => <[key := v]> env
  end.

(** Modelled from the spec: [Apply] runs over every entry of the diff. *)
Definition Apply (d : t) (env : gmap string string) : gmap string string :=
  map_fold apply_entry env d.

(** Modelled from the spec: "produces a new snapshot, never mutates the
    input".  This is the method [Patch] that [Revert] calls. *)
Definition Patch (d : t) (env : env_ref) : M env_ref :=
  m ← deref env; alloc (Apply d m).

End EnvDiff.

(** ** The configuration record *)

(** [time.Duration]: a count of nanoseconds. *)
Abbreviation Duration := Z.
Definition Second : Duration := 1000000000.

Record Config := {
  Env : env_ref;
  WorkDir : string;
  ConfDir : string;
  CacheDir : string;
  DataDir : string;
  SelfPath : string;
  BashBuiltin : bool;
  BashPath : string;
  RCDir : string;
  TomlPath : string;
  DisableStdin : bool;
  StrictEnv : bool;
  WarnTimeout : Duration;
  WhitelistPrefix : list string;
  WhitelistExact : gmap string bool;
}.

(** Assignments to the fields of [*config]. *)

Definition set_Env (v : env_ref) (c : Config) : Config :=
  {| Env := v; WorkDir := WorkDir c; ConfDir := ConfDir c; CacheDir :=
     CacheDir c; DataDir := DataDir c; SelfPath := SelfPath c; BashBuiltin :=
     BashBuiltin c; BashPath := BashPath c; RCDir := RCDir c; TomlPath :=
     TomlPath c; DisableStdin := DisableStdin c; StrictEnv := StrictEnv c;
     WarnTimeout := WarnTimeout c; WhitelistPrefix := WhitelistPrefix c;
     WhitelistExact := WhitelistExact c |}.

Definition set_WorkDir (v : string) (c : Config) : Config :=
  {| Env := Env c; WorkDir := v; ConfDir := ConfDir c; CacheDir := CacheDir c;
     DataDir := DataDir c; SelfPath := SelfPath c; BashBuiltin := BashBuiltin c;
     BashPath := BashPath c; RCDir := RCDir c; TomlPath := TomlPath c;
     DisableStdin := DisableStdin c; StrictEnv := StrictEnv c; WarnTimeout :=
     WarnTimeout c; WhitelistPrefix := WhitelistPrefix c; WhitelistExact :=
     WhitelistExact c |}.

Definition set_ConfDir (v : string) (c : Config) : Config :=
  {| Env := Env c; WorkDir := WorkDir c; ConfDir := v; CacheDir := CacheDir c;
     DataDir := DataDir c; SelfPath := SelfPath c; BashBuiltin := BashBuiltin c;
     BashPath := BashPath c; RCDir := RCDir c; TomlPath := TomlPath c;
     DisableStdin := DisableStdin c; StrictEnv := StrictEnv c; WarnTimeout :=
     WarnTimeout c; WhitelistPrefix := WhitelistPrefix c; WhitelistExact :=
     WhitelistExact c |}.

Definition set_CacheDir (v : string) (c : Config) : Config :=
  {| Env := Env c; WorkDir := WorkDir c; ConfDir := ConfDir c; CacheDir := v;
     DataDir := DataDir c; SelfPath := SelfPath c; BashBuiltin := BashBuiltin c;
     BashPath := BashPath c; RCDir := RCDir c; TomlPath := TomlPath c;
     DisableStdin := DisableStdin c; StrictEnv := StrictEnv c; WarnTimeout :=
     WarnTimeout c; WhitelistPrefix := WhitelistPrefix c; WhitelistExact :=
     WhitelistExact c |}.

Definition set_DataDir (v : string) (c : Config) : Config :=
  {| Env := Env c; WorkDir := WorkDir c; ConfDir := ConfDir c; CacheDir :=
     CacheDir c; DataDir := v; SelfPath := SelfPath c; BashBuiltin := BashBuiltin
     c; BashPath := BashPath c; RCDir := RCDir c; TomlPath := TomlPath c;
     DisableStdin := DisableStdin c; StrictEnv := StrictEnv c; WarnTimeout :=
     WarnTimeout c; WhitelistPrefix := WhitelistPrefix c; WhitelistExact :=
     WhitelistExact c |}.

Definition set_SelfPath (v : string) (c : Config) : Config :=
  {| Env := Env c; WorkDir := WorkDir c; ConfDir := ConfDir c; CacheDir :=
     CacheDir c; DataDir := DataDir c; SelfPath := v; BashBuiltin := BashBuiltin
     c; BashPath := BashPath c; RCDir := RCDir c; TomlPath := TomlPath c;
     DisableStdin := DisableStdin c; StrictEnv := StrictEnv c; WarnTimeout :=
     WarnTimeout c; WhitelistPrefix := WhitelistPrefix c; WhitelistExact :=
     WhitelistExact c |}.

Definition set_BashBuiltin (v : bool) (c : Config) : Config :=
  {| Env := Env c; WorkDir := WorkDir c; ConfDir := ConfDir c; CacheDir :=
     CacheDir c; DataDir := DataDir c; SelfPath := SelfPath c; BashBuiltin := v;
     BashPath := BashPath c; RCDir := RCDir c; TomlPath := TomlPath c;
     DisableStdin := DisableStdin c; StrictEnv := StrictEnv c; WarnTimeout :=
     WarnTimeout c; WhitelistPrefix := WhitelistPrefix c; WhitelistExact :=
     WhitelistExact c |}.

Definition set_BashPath (v : string) (c : Config) : Config :=
  {| Env := Env c; WorkDir := WorkDir c; ConfDir := ConfDir c; CacheDir :=
     CacheDir c; DataDir := DataDir c; SelfPath := SelfPath c; BashBuiltin :=
     BashBuiltin c; BashPath := v; RCDir := RCDir c; TomlPath := TomlPath c;
     DisableStdin := DisableStdin c; StrictEnv := StrictEnv c; WarnTimeout :=
     WarnTimeout c; WhitelistPrefix := WhitelistPrefix c; WhitelistExact :=
     WhitelistExact c |}.

Definition set_RCDir (v : string) (c : Config) : Config :=
  {| Env := Env c; WorkDir := WorkDir c; ConfDir := ConfDir c; CacheDir :=
     CacheDir c; DataDir := DataDir c; SelfPath := SelfPath c; BashBuiltin :=
     BashBuiltin c; BashPath := BashPath c; RCDir := v; TomlPath := TomlPath c;
     DisableStdin := DisableStdin c; StrictEnv := StrictEnv c; WarnTimeout :=
     WarnTimeout c; WhitelistPrefix := WhitelistPrefix c; WhitelistExact :=
     WhitelistExact c |}.

Definition set_TomlPath (v : string) (c : Config) : Config :=
  {| Env := Env c; WorkDir := WorkDir c; ConfDir := ConfDir c; CacheDir :=
     CacheDir c; DataDir := DataDir c; SelfPath := SelfPath c; BashBuiltin :=
     BashBuiltin c; BashPath := BashPath c; RCDir := RCDir c; TomlPath := v;
     DisableStdin := DisableStdin c; StrictEnv := StrictEnv c; WarnTimeout :=
     WarnTimeout c; WhitelistPrefix := WhitelistPrefix c; WhitelistExact :=
     WhitelistExact c |}.

Definition set_DisableStdin (v : bool) (c : Config) : Config :=
  {| Env := Env c; WorkDir := WorkDir c; ConfDir := ConfDir c; CacheDir :=
     CacheDir c; DataDir := DataDir c; SelfPath := SelfPath c; BashBuiltin :=
     BashBuiltin c; BashPath := BashPath c; RCDir := RCDir c; TomlPath :=
     TomlPath c; DisableStdin := v; StrictEnv := StrictEnv c; WarnTimeout :=
     WarnTimeout c; WhitelistPrefix := WhitelistPrefix c; WhitelistExact :=
     WhitelistExact c |}.

Definition set_StrictEnv (v : bool) (c : Config) : Config :=
  {| Env := Env c; WorkDir := WorkDir c; ConfDir := ConfDir c; CacheDir :=
     CacheDir c; DataDir := DataDir c; SelfPath := SelfPath c; BashBuiltin :=
     BashBuiltin c; BashPath := BashPath c; RCDir := RCDir c; TomlPath :=
     TomlPath c; DisableStdin := DisableStdin c; StrictEnv := v; WarnTimeout :=
     WarnTimeout c; WhitelistPrefix := WhitelistPrefix c; WhitelistExact :=
     WhitelistExact c |}.

Definition set_WarnTimeout (v : Duration) (c : Config) : Config :=
  {| Env := Env c; WorkDir := WorkDir c; ConfDir := ConfDir c; CacheDir :=
     CacheDir c; DataDir := DataDir c; SelfPath := SelfPath c; BashBuiltin :=
     BashBuiltin c; BashPath := BashPath c; RCDir := RCDir c; TomlPath :=
     TomlPath c; DisableStdin := DisableStdin c; StrictEnv := StrictEnv c;
     WarnTimeout := v; WhitelistPrefix := WhitelistPrefix c; WhitelistExact :=
     WhitelistExact c |}.

Definition set_WhitelistPrefix (v : list string) (c : Config) : Config :=
  {| Env := Env c; WorkDir := WorkDir c; ConfDir := ConfDir c; CacheDir :=
     CacheDir c; DataDir := DataDir c; SelfPath := SelfPath c; BashBuiltin :=
     BashBuiltin c; BashPath := BashPath c; RCDir := RCDir c; TomlPath :=
     TomlPath c; DisableStdin := DisableStdin c; StrictEnv := StrictEnv c;
     WarnTimeout := WarnTimeout c; WhitelistPrefix := v; WhitelistExact :=
     WhitelistExact c |}.

Definition set_WhitelistExact (v : gmap string bool) (c : Config) : Config :=
  {| Env := Env c; WorkDir := WorkDir c; ConfDir := ConfDir c; CacheDir :=
     CacheDir c; DataDir := DataDir c; SelfPath := SelfPath c; BashBuiltin :=
     BashBuiltin c; BashPath := BashPath c; RCDir := RCDir c; TomlPath :=
     TomlPath c; DisableStdin := DisableStdin c; StrictEnv := StrictEnv c;
     WarnTimeout := WarnTimeout c; WhitelistPrefix := WhitelistPrefix c;
     WhitelistExact := v |}.

(** The decoded TOML file.  In the source the embedded [*tomlGlobal] and the
    [Global] pointer of [tomlConfig] both point at the one variable [global],
    so the decoder fills a single [tomlGlobal] whichever way the file spells
    its keys. *)
Module Toml.

Record tomlGlobal := {
  BashBuiltin : bool;
  BashPath : string;
  DisableStdin : bool;
  StrictEnv : bool;
  WarnTimeout : Duration;
}.

Record tomlWhitelist := {
  Prefix : list string;
  Exact : list string;
}.

Record tomlConfig := {
  Global : tomlGlobal;
  Whitelist : tomlWhitelist;
}.

End Toml.

(** A Go call that returns a value and an [error]; the error is kept as its
    message. *)
Inductive result (A : Type) :=
| Ok (a : A)
| Err (msg : string).
Arguments Ok {A} a.
Arguments Err {A} msg.

(** The errors that [LoadConfig] and [Revert] return. *)
Inductive error :=
| ErrNoConfigDir                      (* couldn't find a configuration directory for direnv *)
| ErrExecutable (cause : string)      (* LoadConfig() os.Executable() failed: %q *)
| ErrGetwd (cause : string)           (* LoadConfig() Getwd failed: %q *)
| ErrParse (path cause : string)      (* LoadConfig() failed to parse %s: %q *)
| ErrNoBash (cause : string)          (* can't find bash: %q *)
| ErrNoCacheDir                       (* couldn't find a cache directory for direnv *)
| ErrNoDataDir                        (* couldn't find a data directory for direnv *)
| ErrDiff (cause : string).           (* the error of LoadEnvDiff, passed on *)

(** What config.go calls but does not define: the process and the file
    system, the TOML decoder, the Go library's duration parser, the xdg
    package, the compiled-in [bashPath] and the decoder of recorded diffs. *)
Record Sys := {
  xdg_ConfigDir : gmap string string → string → string;
  xdg_CacheDir : gmap string string → string → string;
  xdg_DataDir : gmap string string → string → string;
  os_Executable : result string;
  os_Getwd : result string;
  os_Stat : string → bool;
  toml_DecodeFile : string → result Toml.tomlConfig;
  time_ParseDuration : string → result Duration;
  exec_LookPath : string → result string;
  bashPath : string;
  LoadEnvDiff : string → result EnvDiff.t;
}.

(** ** config.go *)

Section config.

Context (sys : Sys).

Import GoString.

(** [&Config{}]: every field at its zero value. *)
Definition zero_Config : Config :=
  {| Env := None; WorkDir := ""; ConfDir := ""; CacheDir := "";
     DataDir := ""; SelfPath := ""; BashBuiltin := false; BashPath := "";
     RCDir := ""; TomlPath := ""; DisableStdin := false; StrictEnv := false;
     WarnTimeout := 0%Z; WhitelistPrefix := []; WhitelistExact := ∅ |}.

(** The loop over [tomlConf.Whitelist.Exact]. *)
Definition add_exact (exact : gmap string bool) (path : string)
  : gmap string bool :=
  let path :=
    if negb (HasSuffix path "/.envrc") then filepath.Join path ".envrc"
    else path in
  <[path := true]> exact.

(** [LoadConfig].  The function has the named results [(config, err)] and
    leaves by a bare [return], so the pointer [config], which is set on the
    first line, comes back also when [err] is set. *)
Definition LoadConfig (env : env_ref) : M (option Config * option error) :=
  let config := set_Env env zero_Config in
  v ← index env DIRENV_CONFIG;
  let config := set_ConfDir v config in
  m ← deref env;
  let config :=
    if String.eqb (ConfDir config) ""
    then set_ConfDir (xdg_ConfigDir sys m "direnv") config else config in
  if String.eqb (ConfDir config) "" then
    mret (Some config, Some ErrNoConfigDir)
  else
  match os_Executable sys with
  | Err e => mret (Some config, Some (ErrExecutable e))
  | Ok exePath =>
  (* Fix for mingsys *)
  let exePath := ReplaceByte exePath "\"%char "/"%char in
  let config := set_SelfPath exePath config in
  match os_Getwd sys with
  | Err e => mret (Some config, Some (ErrGetwd e))
  | Ok wd =>
  let config := set_WorkDir wd config in
  v ← index env DIRENV_DIR;
  let config := set_RCDir v config in
  let config :=
    if (0 <? String.length (RCDir config))%nat
       && String.eqb (slice (RCDir config) 0 1) "-"
    then set_RCDir (slice_from (RCDir config) 1) config else config in
  let config := set_WhitelistPrefix [] config in
  let config := set_WhitelistExact ∅ config in
  (* Load the TOML config *)
  let config :=
    set_TomlPath (filepath.Join (ConfDir config) "direnv.toml") config in
  let config :=
    if os_Stat sys (TomlPath config) then config else
    let config :=
      set_TomlPath (filepath.Join (ConfDir config) "config.toml") config in
    if os_Stat sys (TomlPath config) then config
    else set_TomlPath "" config in
  let loaded : Config + error :=
    if negb (String.eqb (TomlPath config) "") then
      match toml_DecodeFile sys (TomlPath config) with
      | Err e => inr (ErrParse (TomlPath config) e)
      | Ok tomlConf =>
          let config :=
            set_WhitelistPrefix
              (WhitelistPrefix config ++ Toml.Prefix (Toml.Whitelist tomlConf))
              config in
          let config :=
            set_WhitelistExact
              (fold_left add_exact (Toml.Exact (Toml.Whitelist tomlConf))
                 (WhitelistExact config))
              config in
          let global := Toml.Global tomlConf in
          let config := set_BashBuiltin (Toml.BashBuiltin global) config in
          let config := set_BashPath (Toml.BashPath global) config in
          let config := set_DisableStdin (Toml.DisableStdin global) config in
          let config := set_StrictEnv (Toml.StrictEnv global) config in
          inl (set_WarnTimeout (Toml.WarnTimeout global) config)
      end
    else inl config in
  match loaded with
  | inr err => mret (Some config, Some err)
  | inl config =>
  config ←
    (if Z.eqb (WarnTimeout config) 0 then
       s ← Fetch env "DIRENV_WARN_TIMEOUT" "5s";
       match time_ParseDuration sys s with
       | Ok timeout => mret (set_WarnTimeout timeout config)
       | Err e =>
           _ ← logError ("invalid DIRENV_WARN_TIMEOUT: " +:+ e);
           mret (set_WarnTimeout (5 * Second)%Z config)
       end
     else mret config);
  v ← index env DIRENV_BASH;
  let found : Config + error :=
    if String.eqb (BashPath config) "" then
      if negb (String.eqb v "") then inl (set_BashPath v config)
      else if negb (String.eqb (bashPath sys) "") then
        inl (set_BashPath (bashPath sys) config)
      else match exec_LookPath sys "bash" with
           | Ok p => inl (set_BashPath p config)
           | Err e => inr (ErrNoBash e)
           end
    else inl config in
  match found with
  | inr err => mret (Some config, Some err)
  | inl config =>
  let config :=
    if String.eqb (CacheDir config) ""
    then set_CacheDir (xdg_CacheDir sys m "direnv") config else config in
  if String.eqb (CacheDir config) "" then
    mret (Some config, Some ErrNoCacheDir)
  else
  let config :=
    if String.eqb (DataDir config) ""
    then set_DataDir (xdg_DataDir sys m "direnv") config else config in
  if String.eqb (DataDir config) "" then
    mret (Some config, Some ErrNoDataDir)
  else
    mret (Some config, None)
  end end end end.


(** Modelled from the spec: rc.go is not part of the sources at hand.  The
    script handle rebuilt by "FromRecordedState(path, watchData) ->
    ScriptHandle" carries the script path and the recorded watch data; the
    spec gives the operation no failure. *)
Record RC := {
  rc_path : string;
  rc_times : string;
  rc_config : Config;
}.

(** Modelled from the spec: [RCFromEnv] lives in rc.go; it is the spec's
    "FromRecordedState", which rebuilds the handle from the path and the
    recorded watch data and always returns one. *)
Definition RCFromEnv (path marshalledTimes : string) (config : Config)
  : option RC :=
  Some {| rc_path := path; rc_times := marshalledTimes; rc_config := config |}.

(** [LoadedRC] returns a RC file if any has been loaded. *)
Definition LoadedRC (config : Config) : M (option RC) :=
  if String.eqb (RCDir config) "" then
    _ ← logDebug "RCDir is blank - loadedRC is nil";
    mret None
  else
    let rcPath := filepath.Join (RCDir config) ".envrc" in
    timesString ← index (Env config) DIRENV_WATCHES;
    mret (RCFromEnv rcPath timesString config).

(** [Revert] undoes the recorded changes (if any) to the supplied
    environment, returning a new environment. *)
Definition Revert (config : Config) (env : env_ref)
  : M (env_ref * option error) :=
  v ← index (Env config) DIRENV_DIFF;
  if String.eqb v "" then
    e ← Copy env; mret (e, None)
  else
    v ← index (Env config) DIRENV_DIFF;
    match LoadEnvDiff sys v with
    | Ok diff =>
        e ← EnvDiff.Patch (EnvDiff.Reverse diff) env; mret (e, None)
    | Err err => mret (None, Some (ErrDiff err))
    end.

End config.

(** The string recorded under [DIRENV_DIFF] in the environment of the
    configuration, as [Revert] reads it. *)
Definition recorded_diff (h : gmap loc (gmap string string)) (config : Config)
  : string :=
  default "" (contents h (Env config) !! DIRENV_DIFF).

(** A reference handed to the program is nil or points at a map object of
    the store. *)
Definition valid (h : gmap loc (gmap string string)) (e : env_ref) : Prop :=
  match e with
  | Some l => l ∈ dom h
  | None => True
  end.

(** ** A sample run

    The end-to-end example of the spec: the base snapshot, the snapshot
    after the script ran, and a process whose recorded diff is the token
    ["d1"]. *)

Module Sample.

Definition base : gmap string string := {[ "PATH" := "/usr/bin" ]}.

Definition loaded : gmap string string :=
  <[ "FOO" := "bar" ]> {[ "PATH" := "/usr/bin:/proj/bin" ]}.

Definition process_env : gmap string string :=
  <[ "DIRENV_DIFF" := "d1" ]>
    (<[ "DIRENV_DIR" := "-/proj" ]>
       (<[ "DIRENV_WATCHES" := "w1" ]>
          (<[ "DIRENV_WARN_TIMEOUT" := "soon" ]>
             (<[ "HOME" := "/home/u" ]> loaded)))).

Definition broken_env : gmap string string :=
  <[ "DIRENV_DIFF" := "garbage" ]> loaded.

(** Location 1 holds the environment of the process, 2 the snapshot to
    revert, 3 an environment whose recorded diff is damaged and 4 one with
    no direnv state. *)
Definition store : state :=
  State (<[ 4%positive := {[ "HOME" := "/home/u" ]} ]>
           (<[ 3%positive := broken_env ]>
              (<[ 2%positive := loaded ]> {[ 1%positive := process_env ]})))
        [].

Definition home_dir (sub : string) (m : gmap string string) (prog : string)
  : string :=
  match m !! "HOME" with
  | Some h => filepath.Join (filepath.Join h sub) prog
  | None => ""
  end.

Definition decoded : Toml.tomlConfig :=
  {| Toml.Global :=
       {| Toml.BashBuiltin := false; Toml.BashPath := "";
          Toml.DisableStdin := true; Toml.StrictEnv := false;
          Toml.WarnTimeout := 0%Z |};
     Toml.Whitelist :=
       {| Toml.Prefix := ["/home/x"];
          Toml.Exact := ["/home/x"; "/srv/app/.envrc"] |} |}.

Definition sys : Sys :=
  {| xdg_ConfigDir := home_dir ".config";
     xdg_CacheDir := home_dir ".cache";
     xdg_DataDir := home_dir ".local/share";
     os_Executable := Ok "/usr/bin/direnv";
     os_Getwd := Ok "/proj/src";
     os_Stat := λ p, String.eqb p "/home/u/.config/direnv/direnv.toml";
     toml_DecodeFile := λ _, Ok decoded;
     time_ParseDuration := λ s,
       if String.eqb s "5s" then Ok (5 * Second)%Z
       else if String.eqb s "1m" then Ok (60 * Second)%Z
       else Err ("time: invalid duration " +:+ s);
     exec_LookPath := λ f, Ok ("/bin/" +:+ f);
     bashPath := "";
     LoadEnvDiff := λ s,
       if String.eqb s "d1" then Ok (EnvDiff.Compute base loaded)
       else Err "illegal base64 data" |}.

Definition config : Config := set_Env (Some 1%positive) zero_Config.

Definition broken_config : Config := set_Env (Some 3%positive) zero_Config.

Definition plain_config : Config := set_Env (Some 4%positive) zero_Config.

End Sample.

(** ** Notions used to state the properties *)

(** The value of a variable as the program reads it with [env[key]]. *)
Definition getenv (h : gmap loc (gmap string string)) (e : env_ref)
    (key : string) : string :=
  default "" (contents h e !! key).

(** A single leading ["-"] removed when present, the string verbatim
    otherwise. *)
Definition strip_marker (s : string) : string :=
  match s with
  | String "-"%char rest => rest
  | _ => s
  end.

(** The key under which [LoadConfig] stores an exact whitelist entry. *)
Definition exact_key (path : string) : string :=
  if GoString.HasSuffix path "/.envrc" then path
  else filepath.Join path ".envrc".

(** *** The steps of [LoadConfig]

    The body of [LoadConfig] cut at its [return] statements; each step is
    the text of the function between two of them ([LoadConfig_steps] below
    shows that running them in turn is [LoadConfig]). *)

Section steps.

Context (sys : Sys).

Import GoString.

(** Lines 65-72: the configuration directory. *)
Definition step_ConfDir (env : env_ref) (m : gmap string string) : Config :=
  let config := set_Env env zero_Config in
  let config := set_ConfDir (default "" (m !! DIRENV_CONFIG)) config in
  if String.eqb (ConfDir config) ""
  then set_ConfDir (xdg_ConfigDir sys m "direnv") config else config.

(** Lines 92-107: the active directory, the empty whitelists and the path
    of the TOML file. *)
Definition step_RCDir (v : string) (config : Config) : Config :=
  let config := set_RCDir v config in
  let config :=
    if (0 <? String.length (RCDir config))%nat
       && String.eqb (slice (RCDir config) 0 1) "-"
    then set_RCDir (slice_from (RCDir config) 1) config else config in
  let config := set_WhitelistPrefix [] config in
  let config := set_WhitelistExact ∅ config in
  let config :=
    set_TomlPath (filepath.Join (ConfDir config) "direnv.toml") config in
  if os_Stat sys (TomlPath config) then config else
  let config :=
    set_TomlPath (filepath.Join (ConfDir config) "config.toml") config in
  if os_Stat sys (TomlPath config) then config
  else set_TomlPath "" config.

(** Lines 109-138: the TOML file. *)
Definition step_toml (config : Config) : Config + error :=
  if negb (String.eqb (TomlPath config) "") then
    match toml_DecodeFile sys (TomlPath config) with
    | Err e => inr (ErrParse (TomlPath config) e)
    | Ok tomlConf =>
        let config :=
          set_WhitelistPrefix
            (WhitelistPrefix config ++ Toml.Prefix (Toml.Whitelist tomlConf))
            config in
        let config :=
          set_WhitelistExact
            (fold_left add_exact (Toml.Exact (Toml.Whitelist tomlConf))
               (WhitelistExact config))
            config in
        let global := Toml.Global tomlConf in
        let config := set_BashBuiltin (Toml.BashBuiltin global) config in
        let config := set_BashPath (Toml.BashPath global) config in
        let config := set_DisableStdin (Toml.DisableStdin global) config in
        let config := set_StrictEnv (Toml.StrictEnv global) config in
        inl (set_WarnTimeout (Toml.WarnTimeout global) config)
    end
  else inl config.

(** Lines 140-147: the warning timeout. *)
Definition step_WarnTimeout (env : env_ref) (config : Config) : M Config :=
  if Z.eqb (WarnTimeout config) 0 then
    s ← Fetch env "DIRENV_WARN_TIMEOUT" "5s";
    match time_ParseDuration sys s with
    | Ok timeout => mret (set_WarnTimeout timeout config)
    | Err e =>
        _ ← logError ("invalid DIRENV_WARN_TIMEOUT: " +:+ e);
        mret (set_WarnTimeout (5 * Second)%Z config)
    end
  else mret config.

(** Lines 149-158: the interpreter. *)
Definition step_BashPath (v : string) (config : Config) : Config + error :=
  if String.eqb (BashPath config) "" then
    if negb (String.eqb v "") then inl (set_BashPath v config)
    else if negb (String.eqb (bashPath sys) "") then
      inl (set_BashPath (bashPath sys) config)
    else match exec_LookPath sys "bash" with
         | Ok p => inl (set_BashPath p config)
         | Err e => inr (ErrNoBash e)
         end
  else inl config.

(** Lines 160-162 and 168-170: the cache and data directories. *)
Definition step_CacheDir (m : gmap string string) (config : Config) : Config :=
  if String.eqb (CacheDir config) ""
  then set_CacheDir (xdg_CacheDir sys m "direnv") config else config.

Definition step_DataDir (m : gmap string string) (config : Config) : Config :=
  if String.eqb (DataDir config) ""
  then set_DataDir (xdg_DataDir sys m "direnv") config else config.

Definition LoadConfig_by_steps (env : env_ref)
  : M (option Config * option error) :=
  m ← deref env;
  let c1 := step_ConfDir env m in
  if String.eqb (ConfDir c1) "" then mret (Some c1, Some ErrNoConfigDir) else
  match os_Executable sys with
  | Err e => mret (Some c1, Some (ErrExecutable e))
  | Ok exePath =>
  let c2 := set_SelfPath (ReplaceByte exePath "\"%char "/"%char) c1 in
  match os_Getwd sys with
  | Err e => mret (Some c2, Some (ErrGetwd e))
  | Ok wd =>
  v ← index env DIRENV_DIR;
  let c3 := step_RCDir v (set_WorkDir wd c2) in
  match step_toml c3 with
  | inr err => mret (Some c3, Some err)
  | inl c4 =>
  c5 ← step_WarnTimeout env c4;
  v ← index env DIRENV_BASH;
  match step_BashPath v c5 with
  | inr err => mret (Some c5, Some err)
  | inl c6 =>
  let c7 := step_CacheDir m c6 in
  if String.eqb (CacheDir c7) "" then mret (Some c7, Some ErrNoCacheDir) else
  let c8 := step_DataDir m c7 in
  if String.eqb (DataDir c8) "" then mret (Some c8, Some ErrNoDataDir)
  else mret (Some c8, None)
  end end end end.

(** The same, run on a store. *)
Definition LoadConfig_run (env : env_ref) (σ : state)
  : option Config * option error * state :=
  let m := contents (heap σ) env in
  let c1 := step_ConfDir env m in
  if String.eqb (ConfDir c1) "" then (Some c1, Some ErrNoConfigDir, σ) else
  match os_Executable sys with
  | Err e => (Some c1, Some (ErrExecutable e), σ)
  | Ok exePath =>
  let c2 := set_SelfPath (ReplaceByte exePath "\"%char "/"%char) c1 in
  match os_Getwd sys with
  | Err e => (Some c2, Some (ErrGetwd e), σ)
  | Ok wd =>
  let c3 := step_RCDir (default "" (m !! DIRENV_DIR)) (set_WorkDir wd c2) in
  match step_toml c3 with
  | inr err => (Some c3, Some err, σ)
  | inl c4 =>
  let r := step_WarnTimeout env c4 σ in
  match step_BashPath (default "" (contents (heap r.2) env !! DIRENV_BASH)) r.1
  with
  | inr err => (Some r.1, Some err, r.2)
  | inl c6 =>
  let c7 := step_CacheDir m c6 in
  if String.eqb (CacheDir c7) "" then (Some c7, Some ErrNoCacheDir, r.2) else
  let c8 := step_DataDir m c7 in
  if String.eqb (DataDir c8) "" then (Some c8, Some ErrNoDataDir, r.2)
  else (Some c8, None, r.2)
  end end end end.

End steps.

(** The same system with another duration parser. *)
Definition with_ParseDuration (parse : string → result Duration) (sys : Sys)
  : Sys :=
  {| xdg_ConfigDir := xdg_ConfigDir sys; xdg_CacheDir := xdg_CacheDir sys;
     xdg_DataDir := xdg_DataDir sys; os_Executable := os_Executable sys;
     os_Getwd := os_Getwd sys; os_Stat := os_Stat sys;
     toml_DecodeFile := toml_DecodeFile sys; time_ParseDuration := parse;
     exec_LookPath := exec_LookPath sys; bashPath := bashPath sys;
     LoadEnvDiff := LoadEnvDiff sys |}.

(** *** What the steps compute *)

Section computed.

Context (sys : Sys).

(** The configuration directory: the override, else the xdg directory. *)
Definition conf_dir (m : gmap string string) : string :=
  if String.eqb (default "" (m !! DIRENV_CONFIG)) ""
  then xdg_ConfigDir sys m "direnv"
  else default "" (m !! DIRENV_CONFIG).

(** The TOML file: [direnv.toml], else [config.toml], else none. *)
Definition toml_path (confDir : string) : string :=
  if os_Stat sys (filepath.Join confDir "direnv.toml")
  then filepath.Join confDir "direnv.toml"
  else if os_Stat sys (filepath.Join confDir "config.toml")
  then filepath.Join confDir "config.toml"
  else "".

(** The configuration when [LoadConfig] reaches the TOML file. *)
Definition located (env : env_ref) (m : gmap string string)
    (exePath wd : string) : Config :=
  set_TomlPath (toml_path (conf_dir m))
    (set_WhitelistExact ∅
       (set_WhitelistPrefix []
          (set_RCDir (strip_marker (default "" (m !! DIRENV_DIR)))
             (set_WorkDir wd
                (set_SelfPath (GoString.ReplaceByte exePath "\"%char "/"%char)
                   (set_ConfDir (conf_dir m) (set_Env env zero_Config))))))).

(** The configuration after the TOML file was decoded to [t]. *)
Definition with_toml (t : Toml.tomlConfig) (config : Config) : Config :=
  set_WarnTimeout (Toml.WarnTimeout (Toml.Global t))
    (set_StrictEnv (Toml.StrictEnv (Toml.Global t))
       (set_DisableStdin (Toml.DisableStdin (Toml.Global t))
          (set_BashPath (Toml.BashPath (Toml.Global t))
             (set_BashBuiltin (Toml.BashBuiltin (Toml.Global t))
                (set_WhitelistExact
                   (fold_left add_exact (Toml.Exact (Toml.Whitelist t)) ∅)
                   (set_WhitelistPrefix (Toml.Prefix (Toml.Whitelist t))
                      config)))))).

(** The configuration after the TOML step, from the decoded file. *)
Definition after_toml (file : option Toml.tomlConfig) (config : Config)
  : Config :=
  match file with
  | Some t => with_toml t config
  | None => config
  end.

(** The warning timeout taken from the environment. *)
Definition env_timeout (m : gmap string string) : Duration :=
  match time_ParseDuration sys (default "5s" (m !! "DIRENV_WARN_TIMEOUT")) with
  | Ok timeout => timeout
  | Err _ => (5 * Second)%Z
  end.

(** The first interpreter path that is available, in the order in which
    [LoadConfig] asks: TOML file, [DIRENV_BASH], compiled-in default, search
    path. *)
Definition bash_choice (tomlBash envBash : string) : result string :=
  if negb (String.eqb tomlBash "") then Ok tomlBash
  else if negb (String.eqb envBash "") then Ok envBash
  else if negb (String.eqb (bashPath sys) "") then Ok (bashPath sys)
  else exec_LookPath sys "bash".

(** The decoded TOML file, if there is one; the decoder's error if it does
    not parse. *)
Definition toml_file (m : gmap string string)
  : result (option Toml.tomlConfig) :=
  if String.eqb (toml_path (conf_dir m)) "" then Ok None
  else match toml_DecodeFile sys (toml_path (conf_dir m)) with
       | Ok t => Ok (Some t)
       | Err e => Err e
       end.

(** The [bash_path] of the TOML file; empty when there is no file. *)
Definition toml_bash (file : option Toml.tomlConfig) : string :=
  match file with
  | Some t => Toml.BashPath (Toml.Global t)
  | None => ""
  end.

(** The error that [LoadConfig] returns, from what it finds. *)
Definition load_error (m : gmap string string) : option error :=
  if String.eqb (conf_dir m) "" then Some ErrNoConfigDir else
  match os_Executable sys with
  | Err e => Some (ErrExecutable e)
  | Ok _ =>
  match os_Getwd sys with
  | Err e => Some (ErrGetwd e)
  | Ok _ =>
  match toml_file m with
  | Err e => Some (ErrParse (toml_path (conf_dir m)) e)
  | Ok file =>
  match bash_choice (toml_bash file) (default "" (m !! DIRENV_BASH)) with
  | Err e => Some (ErrNoBash e)
  | Ok _ =>
  if String.eqb (xdg_CacheDir sys m "direnv") "" then Some ErrNoCacheDir
  else if String.eqb (xdg_DataDir sys m "direnv") "" then Some ErrNoDataDir
  else None
  end end end end.

End computed.

(** *** Further notions *)

(** The same system with another TOML decoder. *)
Definition with_DecodeFile (decode : string → result Toml.tomlConfig)
    (sys : Sys) : Sys :=
  {| xdg_ConfigDir := xdg_ConfigDir sys; xdg_CacheDir := xdg_CacheDir sys;
     xdg_DataDir := xdg_DataDir sys; os_Executable := os_Executable sys;
     os_Getwd := os_Getwd sys; os_Stat := os_Stat sys;
     toml_DecodeFile := decode;
     time_ParseDuration := time_ParseDuration sys;
     exec_LookPath := exec_LookPath sys; bashPath := bashPath sys;
     LoadEnvDiff := LoadEnvDiff sys |}.


(** Whether a path is rooted, as [Clean] tests it. *)
Definition rooted (path : string) : bool :=
  match path with
  | String c _ => Ascii.eqb c "/"%char
  | EmptyString => false
  end.

(** A second sample system: the TOML file sets a timeout of 30 seconds and
    an interpreter. *)
Module Sample2.

Definition decoded : Toml.tomlConfig :=
  {| Toml.Global :=
       {| Toml.BashBuiltin := true; Toml.BashPath := "/opt/bin/bash";
          Toml.DisableStdin := false; Toml.StrictEnv := true;
          Toml.WarnTimeout := (30 * Second)%Z |};
     Toml.Whitelist := {| Toml.Prefix := []; Toml.Exact := [] |} |}.

Definition sys : Sys := with_DecodeFile (λ _, Ok decoded) Sample.sys.

End Sample2.

Example Join_home : filepath.Join "/home/x" ".envrc" = "/home/x/.envrc".
Proof. reflexivity. Qed.

Example Join_dots : filepath.Join "a/../../b/./c//" ".envrc" = "../b/c/.envrc".
Proof. reflexivity. Qed.

Example Join_root : filepath.Join "/.." "allow" = "/allow".
Proof. reflexivity. Qed.

Example Join_empty : filepath.Join "" ".envrc" = ".envrc".
Proof. reflexivity. Qed.

(** ** Properties of the diff operations *)

Module EnvDiffFacts.
Import EnvDiff.

Lemma lookup_Compute (A B : gmap string string) (k : string) :
  Compute A B !! k =
  if decide (A !! k = B !! k) then None else Some (A !! k, B !! k).
Proof.
  unfold Compute. rewrite lookup_merge.
  destruct (A !! k), (B !! k); simpl; try done.
Qed.

Lemma lookup_Reverse (d : EnvDiff.t) (k : string) :
  Reverse d !! k = (λ e, (e.2, e.1)) <$> d !! k.
Proof. unfold Reverse. apply lookup_fmap. Qed.

Lemma lookup_Apply (d : EnvDiff.t) (env : gmap string string) (k : string) :
  Apply d env !! k =
  match d !! k with
  | Some e => e.2
  | None => env !! k
  end.
Proof.
  unfold Apply. revert k.
  apply (map_fold_weak_ind
           (λ (r : gmap string string) (d : EnvDiff.t),
              ∀ k, r !! k = match d !! k with
                            | Some e => e.2
                            | None => env !! k
                            end)).
  - intros k. by rewrite lookup_empty.
  - intros i x m r Hi IH k. unfold apply_entry.
    destruct (decide (i = k)) as [->|Hne].
    + rewrite lookup_insert_eq.
      destruct (x.2); [by rewrite lookup_insert_eq | by rewrite lookup_delete_eq].
    + rewrite (lookup_insert_ne m) by done. rewrite <- IH.
      destruct (x.2); [by rewrite lookup_insert_ne | by rewrite lookup_delete_ne].
Qed.

(** Applying a diff to the snapshot it was computed from gives the other
    snapshot. *)
Lemma Apply_Compute (A B : gmap string string) :
  Apply (Compute A B) A = B.
Proof.
  apply map_eq. intros k. rewrite lookup_Apply, lookup_Compute.
  case_decide; simpl; done.
Qed.

Lemma Apply_Reverse_Compute (A B : gmap string string) :
  Apply (Reverse (Compute A B)) B = A.
Proof.
  apply map_eq. intros k.
  rewrite lookup_Apply, lookup_Reverse, lookup_Compute.
  case_decide; simpl; done.
Qed.

Lemma Reverse_Reverse (d : EnvDiff.t) : Reverse (Reverse d) = d.
Proof.
  apply map_eq. intros k. rewrite !lookup_Reverse.
  destruct (d !! k) as [[o n]|]; done.
Qed.

End EnvDiffFacts.

(** ** The store *)

(** Unfolds the monadic operations of [f] down to the store they run on. *)
Ltac run_M f :=
  cbv beta iota zeta delta
    [f mbind M_bind mret M_ret index Fetch Copy EnvDiff.Patch deref alloc
       logError logDebug].

Section store_facts.

Implicit Types (h : gmap loc (gmap string string)) (σ : state) (e : env_ref).

Lemma fresh_unallocated h : h !! fresh (dom h) = None.
Proof. apply not_elem_of_dom, is_fresh. Qed.

Lemma alloc_extends h (m : gmap string string) :
  h ⊆ <[fresh (dom h) := m]> h.
Proof. apply insert_subseteq, fresh_unallocated. Qed.

Lemma contents_alloc h (m : gmap string string) :
  contents (<[fresh (dom h) := m]> h) (Some (fresh (dom h))) = m.
Proof. simpl. by rewrite lookup_insert_eq. Qed.

(** Map objects that exist keep their contents when the store grows. *)
Lemma contents_mono h h' e : valid h e → h ⊆ h' → contents h' e = contents h e.
Proof.
  destruct e as [l|]; simpl; [|done].
  intros [m Hm]%elem_of_dom Hsub.
  rewrite Hm. by rewrite (lookup_weaken _ _ _ _ Hm Hsub).
Qed.

End store_facts.

(** ** Revert *)

Section Revert_facts.

Context (sys : Sys).
Implicit Types (σ : state) (config : Config) (env : env_ref).

(** No diff is recorded: a new map object with the bindings of [env]. *)
Lemma Revert_no_diff config env σ :
  recorded_diff (heap σ) config = "" →
  Revert sys config env σ =
  (Some (fresh (dom (heap σ))), None,
   State (<[fresh (dom (heap σ)) := contents (heap σ) env]> (heap σ))
         (logged σ)).
Proof.
  unfold recorded_diff. intros He. run_M Revert.
  rewrite He. reflexivity.
Qed.

(** The recorded diff decodes: a new map object holding the patched
    bindings. *)
Lemma Revert_decoded config env σ (d : EnvDiff.t) :
  recorded_diff (heap σ) config ≠ "" →
  LoadEnvDiff sys (recorded_diff (heap σ) config) = Ok d →
  Revert sys config env σ =
  (Some (fresh (dom (heap σ))), None,
   State (<[fresh (dom (heap σ)) :=
              EnvDiff.Apply (EnvDiff.Reverse d) (contents (heap σ) env)]>
            (heap σ))
         (logged σ)).
Proof.
  unfold recorded_diff. intros Hne Hd. run_M Revert.
  apply String.eqb_neq in Hne. rewrite Hne, Hd. reflexivity.
Qed.

(** The recorded diff does not decode: the error, the nil map, and the
    store as it was. *)
Lemma Revert_undecodable config env σ (cause : string) :
  recorded_diff (heap σ) config ≠ "" →
  LoadEnvDiff sys (recorded_diff (heap σ) config) = Err cause →
  Revert sys config env σ = (None, Some (ErrDiff cause), σ).
Proof.
  unfold recorded_diff. intros Hne Hd. run_M Revert.
  apply String.eqb_neq in Hne. rewrite Hne, Hd. reflexivity.
Qed.

(** The three outcomes of [Revert] are the only ones. *)
Lemma Revert_cases config env σ :
  Revert sys config env σ = (None, (Revert sys config env σ).1.2, σ)
  ∨ ∃ m, Revert sys config env σ =
         (Some (fresh (dom (heap σ))), None,
          State (<[fresh (dom (heap σ)) := m]> (heap σ)) (logged σ)).
Proof.
  destruct (decide (recorded_diff (heap σ) config = "")) as [He|Hne].
  - right. eexists. by apply Revert_no_diff.
  - destruct (LoadEnvDiff sys (recorded_diff (heap σ) config)) as [d|c] eqn:Hd.
    + right. eexists. by apply Revert_decoded.
    + left. by rewrite (Revert_undecodable _ _ _ c).
Qed.

End Revert_facts.

(** C1. For all snapshots A and B, applying the reverse of the diff computed
    between A and B to B gives back exactly A; and when the recorded diff of
    the configuration decodes to the diff between A and the supplied
    environment, [Revert] returns, without error, a map object whose
    bindings are exactly A. *)
Theorem Revert_restores_before (sys : Sys) (config : Config) (env : env_ref)
    (σ : state) (A : gmap string string) :
  recorded_diff (heap σ) config ≠ "" →
  LoadEnvDiff sys (recorded_diff (heap σ) config)
    = Ok (EnvDiff.Compute A (contents (heap σ) env)) →
  (∀ B, EnvDiff.Apply (EnvDiff.Reverse (EnvDiff.Compute A B)) B = A)
  ∧ ∃ l σ', Revert sys config env σ = (Some l, None, σ')
            ∧ contents (heap σ') (Some l) = A.
Proof.
  intros Hne Hd. split.
  - intros B. apply EnvDiffFacts.Apply_Reverse_Compute.
  - eexists _, _. split.
    + by apply Revert_decoded.
    + cbn [heap]. rewrite contents_alloc.
      apply EnvDiffFacts.Apply_Reverse_Compute.
Qed.

Lemma Revert_restores_before_witness :
  recorded_diff (heap Sample.store) Sample.config ≠ ""
  ∧ LoadEnvDiff Sample.sys (recorded_diff (heap Sample.store) Sample.config)
    = Ok (EnvDiff.Compute Sample.base
            (contents (heap Sample.store) (Some 2%positive)))
  ∧ ∃ l σ',
      Revert Sample.sys Sample.config (Some 2%positive) Sample.store
        = (Some l, None, σ')
      ∧ contents (heap σ') (Some l) = Sample.base.
Proof.
  assert (Hne : recorded_diff (heap Sample.store) Sample.config ≠ "")
    by (vm_compute; discriminate).
  assert (Hd : LoadEnvDiff Sample.sys
                 (recorded_diff (heap Sample.store) Sample.config)
               = Ok (EnvDiff.Compute Sample.base
                       (contents (heap Sample.store) (Some 2%positive))))
    by (vm_compute; reflexivity).
  split; [exact Hne|]. split; [exact Hd|].
  exact (proj2 (Revert_restores_before Sample.sys Sample.config
                  (Some 2%positive) Sample.store Sample.base Hne Hd)).
Defined.

(** C2. When no diff is recorded, [Revert] returns without error a new map
    object with the bindings of the supplied environment; when the recorded
    diff decodes, it returns without error a new map object holding the
    supplied environment patched with the reversed diff: every variable the
    diff mentions is back at its old value (or absent) and every other
    variable is as supplied. *)
Theorem Revert_copy_or_patch (sys : Sys) (config : Config) (env : env_ref)
    (σ : state) :
  (recorded_diff (heap σ) config = "" →
   Revert sys config env σ =
   (Some (fresh (dom (heap σ))), None,
    State (<[fresh (dom (heap σ)) := contents (heap σ) env]> (heap σ))
          (logged σ)))
  ∧ (∀ d : EnvDiff.t,
       recorded_diff (heap σ) config ≠ "" →
       LoadEnvDiff sys (recorded_diff (heap σ) config) = Ok d →
       Revert sys config env σ =
       (Some (fresh (dom (heap σ))), None,
        State (<[fresh (dom (heap σ)) :=
                   EnvDiff.Apply (EnvDiff.Reverse d) (contents (heap σ) env)]>
                 (heap σ))
              (logged σ))
       ∧ ∀ k, EnvDiff.Apply (EnvDiff.Reverse d) (contents (heap σ) env) !! k
              = match d !! k with
                | Some e => e.1
                | None => contents (heap σ) env !! k
                end).
Proof.
  split.
  - apply Revert_no_diff.
  - intros d Hne Hd. split; [by apply Revert_decoded|].
    intros k. rewrite EnvDiffFacts.lookup_Apply, EnvDiffFacts.lookup_Reverse.
    by destruct (d !! k).
Qed.

Lemma Revert_copy_or_patch_witness :
  (recorded_diff (heap Sample.store) Sample.plain_config = ""
   ∧ (Revert Sample.sys Sample.plain_config (Some 2%positive) Sample.store).1
     = (Some 5%positive, None)
   ∧ contents
       (heap (Revert Sample.sys Sample.plain_config (Some 2%positive)
                Sample.store).2)
       (Some 5%positive) = Sample.loaded)
  ∧ (recorded_diff (heap Sample.store) Sample.config ≠ ""
     ∧ LoadEnvDiff Sample.sys
         (recorded_diff (heap Sample.store) Sample.config)
       = Ok (EnvDiff.Compute Sample.base Sample.loaded)
     ∧ (Revert Sample.sys Sample.config (Some 2%positive) Sample.store).1
       = (Some 5%positive, None)
     ∧ contents
         (heap (Revert Sample.sys Sample.config (Some 2%positive)
                  Sample.store).2)
         (Some 5%positive) !! "FOO" = None).
Proof.
  pose proof (Revert_copy_or_patch Sample.sys Sample.plain_config
                (Some 2%positive) Sample.store) as [Hcopy _].
  pose proof (Revert_copy_or_patch Sample.sys Sample.config
                (Some 2%positive) Sample.store) as [_ Hpatch].
  assert (He : recorded_diff (heap Sample.store) Sample.plain_config = "")
    by (vm_compute; reflexivity).
  assert (Hne : recorded_diff (heap Sample.store) Sample.config ≠ "")
    by (vm_compute; discriminate).
  assert (Hd : LoadEnvDiff Sample.sys
                 (recorded_diff (heap Sample.store) Sample.config)
               = Ok (EnvDiff.Compute Sample.base Sample.loaded))
    by (vm_compute; reflexivity).
  split.
  - split; [exact He|]. rewrite (Hcopy He).
    split; vm_compute; reflexivity.
  - split; [exact Hne|]. split; [exact Hd|].
    destruct (Hpatch _ Hne Hd) as [-> Hk].
    split; [vm_compute; reflexivity|].
    cbn [snd heap]. rewrite contents_alloc, Hk.
    vm_compute. reflexivity.
Defined.

(** C3, as amended.  When a diff is recorded and it does not decode,
    [Revert] returns the nil environment together with the decoding error;
    it does not fall back to the result it gives when no diff is recorded.
    Nothing is patched: the store, and with it the supplied environment, is
    exactly as it was before the call. *)
Theorem Revert_decode_error (sys : Sys) (config : Config) (env : env_ref)
    (σ : state) (cause : string) :
  recorded_diff (heap σ) config ≠ "" →
  LoadEnvDiff sys (recorded_diff (heap σ) config) = Err cause →
  ∃ σ', Revert sys config env σ = (None, Some (ErrDiff cause), σ')
        ∧ σ' = σ
        ∧ contents (heap σ') env = contents (heap σ) env.
Proof.
  intros Hne Hd. exists σ. split; [|done].
  by apply Revert_undecodable.
Qed.

Lemma Revert_decode_error_witness :
  recorded_diff (heap Sample.store) Sample.broken_config ≠ ""
  ∧ LoadEnvDiff Sample.sys
      (recorded_diff (heap Sample.store) Sample.broken_config)
    = Err "illegal base64 data"
  ∧ ∃ σ', Revert Sample.sys Sample.broken_config (Some 2%positive)
            Sample.store
          = (None, Some (ErrDiff "illegal base64 data"), σ')
          ∧ σ' = Sample.store
          ∧ contents (heap σ') (Some 2%positive)
            = contents (heap Sample.store) (Some 2%positive).
Proof.
  assert (Hne : recorded_diff (heap Sample.store) Sample.broken_config ≠ "")
    by (vm_compute; discriminate).
  assert (Hd : LoadEnvDiff Sample.sys
                 (recorded_diff (heap Sample.store) Sample.broken_config)
               = Err "illegal base64 data")
    by (vm_compute; reflexivity).
  split; [exact Hne|]. split; [exact Hd|].
  exact (Revert_decode_error Sample.sys Sample.broken_config
           (Some 2%positive) Sample.store _ Hne Hd).
Defined.

(** C3 as stated does not hold.  With the damaged diff ["garbage"] recorded,
    [Revert] returns the nil environment and an error, whereas with no diff
    recorded it returns a copy of the supplied environment and no error: a
    diff that fails to decode is not treated as "no active diff". *)
Lemma Revert_decode_error_is_not_no_diff :
  recorded_diff (heap Sample.store) Sample.broken_config = "garbage"
  ∧ LoadEnvDiff Sample.sys "garbage" = Err "illegal base64 data"
  ∧ Revert Sample.sys Sample.broken_config (Some 2%positive) Sample.store
    = (None, Some (ErrDiff "illegal base64 data"), Sample.store)
  ∧ (Revert Sample.sys Sample.plain_config (Some 2%positive) Sample.store).1
    = (Some 5%positive, None)
  ∧ ¬ (∀ (sys : Sys) (config : Config) (env : env_ref) (σ : state)
         (cause : string),
         recorded_diff (heap σ) config ≠ "" →
         LoadEnvDiff sys (recorded_diff (heap σ) config) = Err cause →
         ∃ l σ', Revert sys config env σ = (Some l, None, σ')
                 ∧ contents (heap σ') (Some l) = contents (heap σ) env).
Proof.
  assert (Hrun : Revert Sample.sys Sample.broken_config (Some 2%positive)
                   Sample.store
                 = (None, Some (ErrDiff "illegal base64 data"), Sample.store))
    by (vm_compute; reflexivity).
  split; [vm_compute; reflexivity|].
  split; [vm_compute; reflexivity|].
  split; [exact Hrun|].
  split; [vm_compute; reflexivity|].
  intros Hclaim.
  destruct (Hclaim Sample.sys Sample.broken_config (Some 2%positive)
              Sample.store "illegal base64 data") as (l & σ' & Hr & _).
  - vm_compute. discriminate.
  - vm_compute. reflexivity.
  - rewrite Hrun in Hr. discriminate.
Qed.

(** C9.  [Revert] never changes a map object that exists when it is called:
    the store only grows, so the supplied environment has the same bindings
    after the call as before, and an environment that [Revert] returns is a
    map object that did not exist before, distinct from the one supplied.
    This covers the branch with no recorded diff, the branch that decodes,
    reverses and patches, and the branch that fails. *)
Theorem Revert_does_not_mutate (sys : Sys) (config : Config) (env : env_ref)
    (σ : state) :
  valid (heap σ) env →
  heap σ ⊆ heap (Revert sys config env σ).2
  ∧ contents (heap (Revert sys config env σ).2) env = contents (heap σ) env
  ∧ ∀ l, (Revert sys config env σ).1.1 = Some l →
         heap σ !! l = None ∧ env ≠ Some l.
Proof.
  intros Hv.
  assert (Hsub : heap σ ⊆ heap (Revert sys config env σ).2).
  { destruct (Revert_cases sys config env σ) as [->|[m ->]]; cbn [snd heap].
    - done.
    - apply alloc_extends. }
  split; [done|]. split; [by apply contents_mono|].
  intros l Hl.
  destruct (Revert_cases sys config env σ) as [Hr|[m Hr]];
    rewrite Hr in Hl; cbn in Hl; [done|].
  injection Hl as <-.
  split; [apply fresh_unallocated|].
  intros ->. cbn in Hv. by apply is_fresh in Hv.
Qed.

Lemma Revert_does_not_mutate_witness :
  valid (heap Sample.store) (Some 2%positive)
  ∧ contents
      (heap (Revert Sample.sys Sample.config (Some 2%positive)
               Sample.store).2)
      (Some 2%positive) = Sample.loaded
  ∧ (Revert Sample.sys Sample.config (Some 2%positive) Sample.store).1.1
    ≠ Some 2%positive.
Proof.
  assert (Hv : valid (heap Sample.store) (Some 2%positive))
    by (apply (proj2 (elem_of_dom (heap Sample.store) 2%positive));
        eexists; vm_compute; reflexivity).
  destruct (Revert_does_not_mutate Sample.sys Sample.config (Some 2%positive)
              Sample.store Hv) as (_ & Hsame & Hnew).
  split; [exact Hv|]. split.
  - rewrite Hsame. vm_compute. reflexivity.
  - intros Heq. destruct (Hnew _ Heq) as [_ Hne]. by apply Hne.
Defined.

(** ** Go strings and paths *)

Module GoStringFacts.
Import GoString.

Lemma substring_all (s : string) : String.substring 0 (String.length s) s = s.
Proof. induction s as [|c s IH]; simpl; [done|]. by rewrite IH. Qed.

Lemma append_cons (c : ascii) (a b : string) :
  String c a +:+ b = String c (a +:+ b).
Proof. reflexivity. Qed.

Lemma append_nil (b : string) : "" +:+ b = b.
Proof. reflexivity. Qed.

Lemma length_append (a b : string) :
  String.length (a +:+ b) = (String.length a + String.length b)%nat.
Proof.
  induction a as [|c a IH]; [done|].
  rewrite append_cons. simpl. by rewrite IH.
Qed.

Lemma substring_append_r (a b : string) :
  String.substring (String.length a) (String.length b) (a +:+ b) = b.
Proof.
  induction a as [|c a IH]; [apply substring_all|].
  rewrite append_cons. exact IH.
Qed.

Lemma append_assoc (a b c : string) : (a +:+ b) +:+ c = a +:+ (b +:+ c).
Proof.
  induction a as [|x a IH]; [done|]. rewrite !append_cons. by rewrite IH.
Qed.

(** Every string ends in what was appended to it last. *)
Lemma HasSuffix_append (a b : string) : HasSuffix (a +:+ b) b = true.
Proof.
  unfold HasSuffix, slice_from, slice. rewrite length_append.
  apply andb_true_intro. split.
  - apply Nat.leb_le. lia.
  - replace (String.length a + String.length b - String.length b)%nat
      with (String.length a) by lia.
    replace (String.length a + String.length b - String.length a)%nat
      with (String.length b) by lia.
    rewrite substring_append_r. apply String.eqb_refl.
Qed.

(** The code's test for the marker and its removal, against [strip_marker]. *)
Lemma strip_marker_slice (s : string) :
  (if (0 <? String.length s)%nat && String.eqb (slice s 0 1) "-"
   then slice_from s 1 else s) = strip_marker s.
Proof.
  destruct s as [|c r]; [done|].
  unfold slice_from, slice. cbn [String.length Nat.ltb Nat.leb andb].
  replace (String.substring 0 (1 - 0) (String c r)) with (String c "")
    by (simpl; by destruct r).
  replace (String.substring 1 (S (String.length r) - 1) (String c r)) with r
    by (simpl; rewrite Nat.sub_0_r; by rewrite substring_all).
  unfold strip_marker.
  destruct (Ascii.eqb_spec c "-"%char) as [->|Hne].
  - done.
  - replace (String.eqb (String c "") "-") with false; [|].
    + destruct c as [[] [] [] [] [] [] [] []]; try done.
    + symmetry. apply String.eqb_neq. congruence.
Qed.

Lemma SplitSlash_nonempty (s : string) : SplitSlash s ≠ [].
Proof.
  induction s as [|c s IH]; simpl; [done|].
  destruct (Ascii.eqb c "/"); [done|]. by destruct (SplitSlash s).
Qed.

Lemma SplitSlash_append (a b : string) :
  SplitSlash (a +:+ "/" +:+ b) = SplitSlash a ++ SplitSlash b.
Proof.
  induction a as [|c a IH]; [done|].
  rewrite append_cons. cbn [SplitSlash]. rewrite IH.
  destruct (Ascii.eqb c "/"); [done|].
  pose proof (SplitSlash_nonempty a).
  by destruct (SplitSlash a).
Qed.

Lemma JoinSlash_snoc (l : list string) (x : string) :
  ∃ p, JoinSlash (l ++ [x]) = p +:+ x.
Proof.
  induction l as [|y l [p IH]].
  - by exists "".
  - exists (y +:+ "/" +:+ p). cbn [app JoinSlash]. rewrite IH.
    destruct (l ++ [x]) eqn:E; [by destruct l|].
    by rewrite !append_assoc.
Qed.

Lemma substring_split (n : nat) (s : string) :
  n ≤ String.length s →
  s = String.substring 0 n s +:+ String.substring n (String.length s - n) s.
Proof.
  revert s. induction n as [|n IH]; intros s Hn.
  - rewrite Nat.sub_0_r, substring_all. by destruct s.
  - destruct s as [|c s]; simpl in Hn; [lia|].
    cbn [String.substring String.length Nat.sub].
    rewrite append_cons. f_equal. apply IH. lia.
Qed.

(** A string with a given suffix is something followed by that suffix. *)
Lemma HasSuffix_inv (s suffix : string) :
  HasSuffix s suffix = true → ∃ a, s = a +:+ suffix.
Proof.
  unfold HasSuffix, slice_from, slice.
  intros [Hlen Heq]%andb_prop.
  apply Nat.leb_le in Hlen. apply String.eqb_eq in Heq.
  exists (String.substring 0 (String.length s - String.length suffix) s).
  pose proof (substring_split (String.length s - String.length suffix) s) as Hs.
  rewrite Heq in Hs. apply Hs. lia.
Qed.

Lemma append_empty_r (a b : string) : a +:+ b = "" → b = "".
Proof. by destruct a. Qed.

End GoStringFacts.

Module filepathFacts.
Import GoString GoStringFacts filepath.

(** Cleaning a path that ends in a proper element keeps that element at the
    end. *)
Lemma Clean_last (a e : string) :
  a ≠ "" → SplitSlash e = [e] → e ≠ "" → e ≠ "." → e ≠ ".." →
  ∃ p, Clean (a +:+ "/" +:+ e) = p +:+ e.
Proof.
  intros Ha Hsplit He1 He2 He3.
  destruct a as [|c a]; [done|].
  rewrite append_cons. unfold Clean. rewrite <- append_cons.
  rewrite SplitSlash_append, Hsplit, fold_left_app. cbn [fold_left].
  set (rooted := Ascii.eqb c "/").
  set (out := fold_left (clean_elem rooted) (SplitSlash (String c a)) []).
  unfold clean_elem.
  apply String.eqb_neq in He1, He2, He3. rewrite He1, He2, He3.
  cbn [rev]. destruct (JoinSlash_snoc (rev out) e) as [p ->].
  destruct rooted.
  - exists ("/" +:+ p). by rewrite append_assoc.
  - exists p. destruct (String.eqb_spec (p +:+ e) "") as [Hnil|]; [|done].
    apply append_empty_r in Hnil. apply String.eqb_neq in He1. done.
Qed.

Lemma Join_last (a e : string) :
  SplitSlash e = [e] → e ≠ "" → e ≠ "." → e ≠ ".." →
  ∃ p, Join a e = p +:+ e.
Proof.
  intros Hsplit He1 He2 He3. unfold Join.
  destruct (String.eqb_spec a "") as [->|Ha].
  - apply String.eqb_neq in He1 as He1'. rewrite He1'.
    exists "". destruct e as [|c e]; [done|].
    unfold Clean. rewrite Hsplit. cbn [fold_left].
    apply String.eqb_neq in He2, He3.
    destruct (Ascii.eqb_spec c "/") as [->|Hc].
    + exfalso. simpl in Hsplit. by destruct (SplitSlash e).
    + unfold clean_elem. rewrite He1', He2, He3.
      cbn [rev app JoinSlash]. by rewrite He1'.
  - by apply Clean_last.
Qed.

(** Whatever the directory, joining [.envrc] to it gives a path that ends in
    [.envrc]. *)
Lemma Join_envrc (a : string) : HasSuffix (Join a ".envrc") ".envrc" = true.
Proof.
  destruct (Join_last a ".envrc") as [p ->]; try done.
  apply HasSuffix_append.
Qed.

End filepathFacts.


(** ** LoadConfig *)

Section LoadConfig_facts.

Context (sys : Sys).
Implicit Types (σ : state) (config cfg : Config) (env : env_ref).

Lemma LoadConfig_steps env : LoadConfig sys env = LoadConfig_by_steps sys env.
Proof. reflexivity. Qed.

Lemma LoadConfig_runs env σ : LoadConfig sys env σ = LoadConfig_run sys env σ.
Proof.
  rewrite LoadConfig_steps.
  unfold LoadConfig_by_steps, LoadConfig_run.
  cbv beta iota zeta delta [mbind M_bind mret M_ret index deref].
  destruct (String.eqb _ ""); [reflexivity|].
  destruct (os_Executable sys); [|reflexivity].
  destruct (os_Getwd sys); [|reflexivity].
  destruct (step_toml sys _) as [c4|]; [|reflexivity].
  destruct (step_WarnTimeout sys env c4 σ) as [c5 σ5]. cbn [fst snd].
  destruct (step_BashPath sys _ c5); [|reflexivity].
  destruct (String.eqb _ ""); [reflexivity|].
  destruct (String.eqb _ ""); reflexivity.
Qed.

(** Assigning a field its own value changes nothing. *)
Lemma set_WarnTimeout_same cfg : set_WarnTimeout (WarnTimeout cfg) cfg = cfg.
Proof. by destruct cfg. Qed.

Lemma set_BashPath_same cfg : set_BashPath (BashPath cfg) cfg = cfg.
Proof. by destruct cfg. Qed.

Lemma set_CacheDir_same cfg : set_CacheDir (CacheDir cfg) cfg = cfg.
Proof. by destruct cfg. Qed.

Lemma set_DataDir_same cfg : set_DataDir (DataDir cfg) cfg = cfg.
Proof. by destruct cfg. Qed.

Lemma step_ConfDir_eq env (m : gmap string string) :
  step_ConfDir sys env m = set_ConfDir (conf_dir sys m) (set_Env env zero_Config).
Proof.
  unfold step_ConfDir, conf_dir. cbn [ConfDir set_ConfDir].
  by destruct (String.eqb _ "").
Qed.

Lemma step_RCDir_eq (v : string) config :
  step_RCDir sys v config =
  set_TomlPath (toml_path sys (ConfDir config))
    (set_WhitelistExact ∅
       (set_WhitelistPrefix [] (set_RCDir (strip_marker v) config))).
Proof.
  unfold step_RCDir, toml_path. cbv zeta.
  cbn [RCDir set_RCDir].
  rewrite <- (GoStringFacts.strip_marker_slice v).
  destruct (_ && _); cbn [ConfDir TomlPath set_TomlPath set_WhitelistExact
                          set_WhitelistPrefix set_RCDir];
    destruct (os_Stat sys (filepath.Join (ConfDir config) "direnv.toml"));
    try reflexivity;
    destruct (os_Stat sys (filepath.Join (ConfDir config) "config.toml"));
    reflexivity.
Qed.

Lemma step_toml_inv config c' :
  WhitelistPrefix config = [] →
  WhitelistExact config = ∅ →
  step_toml sys config = inl c' →
  (TomlPath config = "" ∧ c' = config)
  ∨ ∃ t, TomlPath config ≠ ""
         ∧ toml_DecodeFile sys (TomlPath config) = Ok t
         ∧ c' = with_toml t config.
Proof.
  intros Hp He. unfold step_toml.
  destruct (String.eqb_spec (TomlPath config) "") as [Hnil|Hpath]; cbn [negb].
  - intros [= <-]. by left.
  - destruct (toml_DecodeFile sys (TomlPath config)) as [t|e]; [|done].
    cbv zeta. intros [= <-]. right. exists t.
    split; [done|]. split; [done|].
    unfold with_toml.
    cbn [WhitelistPrefix WhitelistExact set_WhitelistPrefix set_WhitelistExact].
    by rewrite Hp, He.
Qed.

Lemma step_WarnTimeout_run env config σ :
  step_WarnTimeout sys env config σ =
  if Z.eqb (WarnTimeout config) 0 then
    (set_WarnTimeout (env_timeout sys (contents (heap σ) env)) config,
     match time_ParseDuration sys
             (default "5s" (contents (heap σ) env !! "DIRENV_WARN_TIMEOUT"))
     with
     | Ok _ => σ
     | Err e =>
         State (heap σ)
               (logged σ
                ++ [(LevelError, "invalid DIRENV_WARN_TIMEOUT: " +:+ e)])
     end)
  else (config, σ).
Proof.
  unfold step_WarnTimeout, env_timeout.
  destruct (Z.eqb (WarnTimeout config) 0); [|reflexivity].
  cbv beta iota zeta delta [mbind M_bind mret M_ret Fetch deref logError].
  by destruct (time_ParseDuration sys _).
Qed.

(** The timeout step changes the timeout only, and never the map objects. *)
Lemma step_WarnTimeout_frame env config σ :
  (step_WarnTimeout sys env config σ).1
  = set_WarnTimeout (WarnTimeout (step_WarnTimeout sys env config σ).1) config
  ∧ heap (step_WarnTimeout sys env config σ).2 = heap σ.
Proof.
  rewrite step_WarnTimeout_run.
  destruct (Z.eqb (WarnTimeout config) 0); cbn [fst snd].
  - split; [done|]. by destruct (time_ParseDuration sys _).
  - split; [|done]. by rewrite set_WarnTimeout_same.
Qed.

Lemma step_BashPath_inv (v : string) config c' :
  step_BashPath sys v config = inl c' →
  bash_choice sys (BashPath config) v = Ok (BashPath c')
  ∧ c' = set_BashPath (BashPath c') config.
Proof.
  unfold step_BashPath, bash_choice.
  destruct (String.eqb_spec (BashPath config) "") as [Hnil|Hset]; cbn [negb].
  - destruct (negb (String.eqb v "")); [by intros [= <-]|].
    destruct (negb (String.eqb (bashPath sys) "")); [by intros [= <-]|].
    destruct (exec_LookPath sys "bash"); [by intros [= <-]|done].
  - intros [= <-]. by rewrite set_BashPath_same.
Qed.

Lemma step_BashPath_fails (v : string) config err :
  step_BashPath sys v config = inr err →
  ∃ cause, err = ErrNoBash cause
           ∧ bash_choice sys (BashPath config) v = Err cause
           ∧ BashPath config = "" ∧ v = "" ∧ bashPath sys = ""
           ∧ exec_LookPath sys "bash" = Err cause.
Proof.
  unfold step_BashPath, bash_choice.
  destruct (String.eqb_spec (BashPath config) "") as [Hnil|Hset]; [|done].
  destruct (String.eqb_spec v "") as [->|]; [|done].
  destruct (String.eqb_spec (bashPath sys) "") as [Hb|]; [|done].
  cbn [negb].
  destruct (exec_LookPath sys "bash") as [p|cause]; [done|].
  intros [= <-]. by exists cause.
Qed.

Lemma step_CacheDir_eq (m : gmap string string) config :
  CacheDir config = "" →
  step_CacheDir sys m config = set_CacheDir (xdg_CacheDir sys m "direnv") config.
Proof. unfold step_CacheDir. by intros ->. Qed.

Lemma step_DataDir_eq (m : gmap string string) config :
  DataDir config = "" →
  step_DataDir sys m config = set_DataDir (xdg_DataDir sys m "direnv") config.
Proof. unfold step_DataDir. by intros ->. Qed.

(** Where [LoadConfig_run] stands once the working directory is known. *)
Lemma located_eq env (m : gmap string string) (exePath wd : string) :
  step_RCDir sys (default "" (m !! DIRENV_DIR))
    (set_WorkDir wd
       (set_SelfPath (GoString.ReplaceByte exePath "\"%char "/"%char)
          (step_ConfDir sys env m)))
  = located sys env m exePath wd.
Proof. rewrite step_RCDir_eq, step_ConfDir_eq. reflexivity. Qed.

Lemma step_toml_located env (m : gmap string string) (exePath wd : string) c4 :
  step_toml sys (located sys env m exePath wd) = inl c4 →
  (toml_path sys (conf_dir sys m) = "" ∧ c4 = located sys env m exePath wd)
  ∨ ∃ t, toml_path sys (conf_dir sys m) ≠ ""
         ∧ toml_DecodeFile sys (toml_path sys (conf_dir sys m)) = Ok t
         ∧ c4 = with_toml t (located sys env m exePath wd).
Proof. intros H. by apply step_toml_inv in H. Qed.

(** Splits a run of [LoadConfig] at its [return] statements, in order. *)
Ltac split_run H :=
  rewrite LoadConfig_runs in H; unfold LoadConfig_run in H; cbv zeta in H;
  let Hconf := fresh "Hconf" in
  let Hexe := fresh "Hexe" in
  let Hwd := fresh "Hwd" in
  let Htoml := fresh "Htoml" in
  let Hbash := fresh "Hbash" in
  let Hcache := fresh "Hcache" in
  let Hdata := fresh "Hdata" in
  destruct (String.eqb (ConfDir (step_ConfDir _ _ _)) "") eqn:Hconf in H;
  [|destruct (os_Executable _) as [?exePath|?cause] eqn:Hexe in H;
    [destruct (os_Getwd _) as [?wd|?cause] eqn:Hwd in H;
     [rewrite located_eq in H;
      destruct (step_toml _ _) as [?c4|?err] eqn:Htoml in H;
      [destruct (step_BashPath _ _ _) as [?c6|?err] eqn:Hbash in H;
       [destruct (String.eqb (CacheDir (step_CacheDir _ _ _)) "")
          eqn:Hcache in H;
        [|destruct (String.eqb (DataDir (step_DataDir _ _ _)) "")
            eqn:Hdata in H]
       |]
      |]
     |]
    |]].

Lemma step_toml_file env (m : gmap string string) (exePath wd : string) c4 :
  step_toml sys (located sys env m exePath wd) = inl c4 →
  ∃ file, toml_file sys m = Ok file
          ∧ c4 = after_toml file (located sys env m exePath wd).
Proof.
  intros H. unfold toml_file.
  destruct (step_toml_located _ _ _ _ _ H) as [[Hp ->]|(t & Hp & Ht & ->)].
  - exists None. by rewrite Hp.
  - exists (Some t). apply String.eqb_neq in Hp. by rewrite Hp, Ht.
Qed.

Lemma step_toml_fails env (m : gmap string string) (exePath wd : string) err :
  step_toml sys (located sys env m exePath wd) = inr err →
  ∃ cause, toml_file sys m = Err cause
           ∧ err = ErrParse (toml_path sys (conf_dir sys m)) cause.
Proof.
  unfold step_toml, toml_file. cbn [TomlPath located set_TomlPath].
  destruct (String.eqb (toml_path sys (conf_dir sys m)) ""); [done|].
  cbn [negb].
  destruct (toml_DecodeFile sys _) as [t|cause]; [done|].
  intros [= <-]. by exists cause.
Qed.

Lemma BashPath_after_toml file env (m : gmap string string) (exePath wd : string) :
  BashPath (after_toml file (located sys env m exePath wd)) = toml_bash file.
Proof. by destruct file. Qed.

Lemma tail_dirs_after env (m : gmap string string) (exePath wd : string) σ
    file c6 :
  step_BashPath sys
    (default ""
       (contents
          (heap (step_WarnTimeout sys env
                   (after_toml file (located sys env m exePath wd)) σ).2)
          env !! DIRENV_BASH))
    (step_WarnTimeout sys env
       (after_toml file (located sys env m exePath wd)) σ).1 = inl c6 →
  heap (step_WarnTimeout sys env
          (after_toml file (located sys env m exePath wd)) σ).2 = heap σ
  ∧ bash_choice sys (toml_bash file)
      (default ""
         (contents
            (heap (step_WarnTimeout sys env
                     (after_toml file (located sys env m exePath wd)) σ).2)
            env !! DIRENV_BASH))
    = Ok (BashPath c6)
  ∧ c6 = set_BashPath (BashPath c6)
           (step_WarnTimeout sys env
              (after_toml file (located sys env m exePath wd)) σ).1
  ∧ CacheDir c6 = ""
  ∧ DataDir c6 = "".
Proof.
  intros Hbash.
  destruct (step_WarnTimeout_frame env
              (after_toml file (located sys env m exePath wd)) σ)
    as [Hc5 Hheap].
  apply step_BashPath_inv in Hbash as [Hchoice Hc6].
  rewrite Hc5 in Hchoice. cbn [BashPath set_WarnTimeout] in Hchoice.
  rewrite BashPath_after_toml in Hchoice.
  split; [done|]. split; [done|]. split; [done|].
  rewrite Hc6, Hc5. cbn [CacheDir DataDir set_BashPath set_WarnTimeout].
  by destruct file.
Qed.

(** After the TOML step the directories are still unset; the timeout and
    interpreter steps leave them so. *)
Lemma tail_dirs env (m : gmap string string) (exePath wd : string) σ c4 c6 :
  step_toml sys (located sys env m exePath wd) = inl c4 →
  step_BashPath sys
    (default "" (contents (heap (step_WarnTimeout sys env c4 σ).2) env
                 !! DIRENV_BASH))
    (step_WarnTimeout sys env c4 σ).1 = inl c6 →
  heap (step_WarnTimeout sys env c4 σ).2 = heap σ
  ∧ bash_choice sys (BashPath c4)
      (default "" (contents (heap (step_WarnTimeout sys env c4 σ).2) env
                   !! DIRENV_BASH))
    = Ok (BashPath c6)
  ∧ c6 = set_BashPath (BashPath c6) (step_WarnTimeout sys env c4 σ).1
  ∧ CacheDir c6 = ""
  ∧ DataDir c6 = "".
Proof.
  intros Htoml Hbash.
  destruct (step_WarnTimeout_frame env c4 σ) as [Hc5 Hheap].
  apply step_BashPath_inv in Hbash as [Hchoice Hc6].
  rewrite Hc5 in Hchoice. cbn [BashPath set_WarnTimeout] in Hchoice.
  split; [done|]. split; [done|]. split; [done|].
  rewrite Hc6, Hc5. cbn [CacheDir DataDir set_BashPath set_WarnTimeout].
  by destruct (step_toml_located _ _ _ _ _ Htoml) as [[_ ->]|(t & _ & _ & ->)].
Qed.

Lemma LoadConfig_ok_inv env σ cfg σ' :
  LoadConfig sys env σ = (Some cfg, None, σ') →
  ∃ exePath wd c4,
    os_Executable sys = Ok exePath
    ∧ os_Getwd sys = Ok wd
    ∧ step_toml sys (located sys env (contents (heap σ) env) exePath wd) = inl c4
    ∧ σ' = (step_WarnTimeout sys env c4 σ).2
    ∧ bash_choice sys (BashPath c4) (default "" (contents (heap σ) env !! DIRENV_BASH))
      = Ok (BashPath cfg)
    ∧ cfg = set_DataDir (xdg_DataDir sys (contents (heap σ) env) "direnv")
              (set_CacheDir (xdg_CacheDir sys (contents (heap σ) env) "direnv")
                 (set_BashPath (BashPath cfg)
                    (step_WarnTimeout sys env c4 σ).1))
    ∧ conf_dir sys (contents (heap σ) env) ≠ ""
    ∧ xdg_CacheDir sys (contents (heap σ) env) "direnv" ≠ ""
    ∧ xdg_DataDir sys (contents (heap σ) env) "direnv" ≠ "".
Proof.
  intros H. split_run H; try discriminate H.
  injection H as <- <-.
  destruct (tail_dirs _ _ _ _ _ _ _ Htoml Hbash)
    as (Hheap & Hchoice & Hc6 & Hcd & Hdd).
  rewrite step_CacheDir_eq in * by done.
  rewrite step_DataDir_eq in * by done.
  cbn [CacheDir DataDir set_CacheDir set_DataDir BashPath] in *.
  exists exePath, wd, c4.
  rewrite step_ConfDir_eq in Hconf. cbn [ConfDir set_ConfDir] in Hconf.
  apply String.eqb_neq in Hconf, Hcache, Hdata.
  rewrite Hheap in Hchoice.
  repeat split; try done.
  by rewrite <- Hc6.
Qed.

(** [LoadConfig] always hands back the pointer it allocated first. *)
Lemma LoadConfig_returns_config env σ :
  ∃ cfg, (LoadConfig sys env σ).1.1 = Some cfg.
Proof.
  destruct (LoadConfig sys env σ) as [[c e] σ'] eqn:H.
  split_run H; injection H as <- <- <-; eauto.
Qed.

(** [LoadConfig] leaves every map object as it found it. *)
Lemma LoadConfig_heap env σ : heap (LoadConfig sys env σ).2 = heap σ.
Proof.
  destruct (LoadConfig sys env σ) as [[c e] σ'] eqn:H.
  split_run H; injection H as <- <- <-; cbn [snd]; try done;
    apply step_WarnTimeout_frame.
Qed.


(** The error of [LoadConfig] is [load_error] of what it finds. *)
Lemma LoadConfig_error env σ :
  (LoadConfig sys env σ).1.2 = load_error sys (contents (heap σ) env).
Proof.
  destruct (LoadConfig sys env σ) as [[c e] σ'] eqn:H.
  unfold load_error. cbn [fst snd].
  split_run H; injection H as <- <- <-;
    rewrite step_ConfDir_eq in Hconf; cbn [ConfDir set_ConfDir] in Hconf;
    rewrite Hconf, ?Hexe, ?Hwd; try done.
  - apply step_toml_file in Htoml as (file & -> & ->).
    destruct (tail_dirs_after _ _ _ _ _ _ _ Hbash)
      as (Hheap & Hchoice & Hc6 & Hcd & Hdd).
    rewrite Hheap in Hchoice. rewrite Hchoice.
    rewrite step_CacheDir_eq in Hcache by done.
    cbn [CacheDir set_CacheDir] in Hcache. by rewrite Hcache.
  - apply step_toml_file in Htoml as (file & -> & ->).
    destruct (tail_dirs_after _ _ _ _ _ _ _ Hbash)
      as (Hheap & Hchoice & Hc6 & Hcd & Hdd).
    rewrite Hheap in Hchoice. rewrite Hchoice.
    rewrite step_CacheDir_eq in Hcache, Hdata by done.
    rewrite step_DataDir_eq in Hdata by done.
    cbn [CacheDir DataDir set_CacheDir set_DataDir] in Hcache, Hdata.
    by rewrite Hcache, Hdata.
  - apply step_toml_file in Htoml as (file & -> & ->).
    destruct (tail_dirs_after _ _ _ _ _ _ _ Hbash)
      as (Hheap & Hchoice & Hc6 & Hcd & Hdd).
    rewrite Hheap in Hchoice. rewrite Hchoice.
    rewrite step_CacheDir_eq in Hcache, Hdata by done.
    rewrite step_DataDir_eq in Hdata by done.
    cbn [CacheDir DataDir set_CacheDir set_DataDir] in Hcache, Hdata.
    by rewrite Hcache, Hdata.
  - apply step_toml_file in Htoml as (file & -> & ->).
    apply step_BashPath_fails in Hbash as (cause & -> & Hchoice & _).
    destruct (step_WarnTimeout_frame env
                (after_toml file
                   (located sys env (contents (heap σ) env) exePath wd)) σ)
      as [Hc5 Hheap].
    rewrite Hc5 in Hchoice. cbn [BashPath set_WarnTimeout] in Hchoice.
    rewrite BashPath_after_toml, Hheap in Hchoice. by rewrite Hchoice.
  - apply step_toml_fails in Htoml as (cause & -> & ->). done.
Qed.

(** A successful run, field by field. *)
Lemma LoadConfig_ok_closed env σ cfg σ' :
  LoadConfig sys env σ = (Some cfg, None, σ') →
  ∃ exePath wd file,
    os_Executable sys = Ok exePath
    ∧ os_Getwd sys = Ok wd
    ∧ toml_file sys (contents (heap σ) env) = Ok file
    ∧ step_WarnTimeout sys env
        (after_toml file (located sys env (contents (heap σ) env) exePath wd))
        σ
      = (set_WarnTimeout (WarnTimeout cfg)
           (after_toml file
              (located sys env (contents (heap σ) env) exePath wd)),
         σ')
    ∧ bash_choice sys (toml_bash file)
        (default "" (contents (heap σ) env !! DIRENV_BASH))
      = Ok (BashPath cfg)
    ∧ cfg = set_DataDir (xdg_DataDir sys (contents (heap σ) env) "direnv")
              (set_CacheDir (xdg_CacheDir sys (contents (heap σ) env) "direnv")
                 (set_BashPath (BashPath cfg)
                    (set_WarnTimeout (WarnTimeout cfg)
                       (after_toml file
                          (located sys env (contents (heap σ) env)
                             exePath wd))))).
Proof.
  intros H.
  destruct (LoadConfig_ok_inv _ _ _ _ H)
    as (exePath & wd & c4 & Hexe & Hwd & Htoml & Hσ & Hchoice & Hcfg & _).
  apply step_toml_file in Htoml as (file & Hfile & ->).
  rewrite BashPath_after_toml in Hchoice.
  exists exePath, wd, file.
  destruct (step_WarnTimeout_frame env
              (after_toml file
                 (located sys env (contents (heap σ) env) exePath wd)) σ)
    as [Hc5 _].
  assert (Hwt : WarnTimeout cfg
                = WarnTimeout
                    (step_WarnTimeout sys env
                       (after_toml file
                          (located sys env (contents (heap σ) env)
                             exePath wd)) σ).1)
    by (rewrite Hcfg at 1; reflexivity).
  rewrite <- Hwt in Hc5.
  repeat split; try done.
  - rewrite <- Hc5, Hσ. by destruct (step_WarnTimeout sys env _ σ).
  - by rewrite <- Hc5.
Qed.

(** *** The whitelist *)

Lemma add_exact_eq (exact : gmap string bool) (path : string) :
  add_exact exact path = <[exact_key path := true]> exact.
Proof.
  unfold add_exact, exact_key. by destruct (GoString.HasSuffix path "/.envrc").
Qed.

Lemma exact_key_envrc (path : string) :
  GoString.HasSuffix (exact_key path) ".envrc" = true.
Proof.
  unfold exact_key.
  destruct (GoString.HasSuffix path "/.envrc") eqn:E.
  - apply GoStringFacts.HasSuffix_inv in E as [a ->].
    change "/.envrc" with ("/" +:+ ".envrc").
    rewrite <- GoStringFacts.append_assoc.
    apply GoStringFacts.HasSuffix_append.
  - apply filepathFacts.Join_envrc.
Qed.

Lemma fold_add_exact_keeps (l : list string) (exact : gmap string bool)
    (k : string) :
  exact !! k = Some true → fold_left add_exact l exact !! k = Some true.
Proof.
  revert exact. induction l as [|p l IH]; intros exact Hk; [done|].
  cbn [fold_left]. apply IH. rewrite add_exact_eq.
  destruct (decide (exact_key p = k)) as [->|Hne].
  - by rewrite lookup_insert_eq.
  - by rewrite lookup_insert_ne.
Qed.

Lemma fold_add_exact_elem (l : list string) (exact : gmap string bool)
    (p : string) :
  p ∈ l → fold_left add_exact l exact !! exact_key p = Some true.
Proof.
  revert exact. induction l as [|q l IH]; intros exact Hp.
  - by apply elem_of_nil in Hp.
  - cbn [fold_left]. apply elem_of_cons in Hp as [->|Hp].
    + apply fold_add_exact_keeps. rewrite add_exact_eq.
      by rewrite lookup_insert_eq.
    + by apply IH.
Qed.

Lemma fold_add_exact_lookup (l : list string) (exact : gmap string bool)
    (k : string) (b : bool) :
  fold_left add_exact l exact !! k = Some b →
  exact !! k = Some b ∨ (b = true ∧ ∃ p, p ∈ l ∧ k = exact_key p).
Proof.
  revert exact. induction l as [|q l IH]; intros exact Hk; [by left|].
  cbn [fold_left] in Hk. apply IH in Hk as [Hk|(-> & p & Hp & ->)].
  - rewrite add_exact_eq in Hk.
    destruct (decide (exact_key q = k)) as [<-|Hne].
    + rewrite lookup_insert_eq in Hk. injection Hk as <-.
      right. split; [done|]. exists q. split; [|done]. apply elem_of_cons. by left.
    + rewrite lookup_insert_ne in Hk by done. by left.
  - right. split; [done|]. exists p. split; [|done].
    apply elem_of_cons. by right.
Qed.

End LoadConfig_facts.

(** *** The claims about LoadConfig *)

(** C4, as amended.  When [LoadConfig] succeeds with a TOML file, the prefix
    entries of the whitelist are stored as they are written, in order; only
    the exact entries are normalized: an entry that ends in [/.envrc] is
    stored as it is and any other is joined with [.envrc], so every key of
    the exact set ends in [.envrc], every entry has its key in the set, and
    the entry [/home/x] is stored as [/home/x/.envrc]. *)
Theorem LoadConfig_whitelist (sys : Sys) (env : env_ref) (σ : state)
    (cfg : Config) (σ' : state) (t : Toml.tomlConfig) :
  LoadConfig sys env σ = (Some cfg, None, σ') →
  toml_file sys (contents (heap σ) env) = Ok (Some t) →
  WhitelistPrefix cfg = Toml.Prefix (Toml.Whitelist t)
  ∧ (∀ p, p ∈ Toml.Exact (Toml.Whitelist t) →
          WhitelistExact cfg !! exact_key p = Some true)
  ∧ (∀ k b, WhitelistExact cfg !! k = Some b →
            b = true
            ∧ GoString.HasSuffix k ".envrc" = true
            ∧ ∃ p, p ∈ Toml.Exact (Toml.Whitelist t) ∧ k = exact_key p)
  ∧ exact_key "/home/x" = "/home/x/.envrc".
Proof.
  intros H Ht.
  destruct (LoadConfig_ok_closed _ _ _ _ _ H)
    as (exePath & wd & file & _ & _ & Hfile & _ & _ & Hcfg).
  rewrite Ht in Hfile. injection Hfile as <-.
  assert (Hp : WhitelistPrefix cfg = Toml.Prefix (Toml.Whitelist t))
    by (rewrite Hcfg; reflexivity).
  assert (He : WhitelistExact cfg
               = fold_left add_exact (Toml.Exact (Toml.Whitelist t)) ∅)
    by (rewrite Hcfg; reflexivity).
  split; [done|]. rewrite He. split; [|split; [|done]].
  - intros p Hin. by apply fold_add_exact_elem.
  - intros k b Hk.
    apply fold_add_exact_lookup in Hk as [Hk|(-> & p & Hin & ->)].
    + by rewrite lookup_empty in Hk.
    + split; [done|]. split; [apply exact_key_envrc|]. by exists p.
Qed.

(** C5.  When [LoadConfig] succeeds, [RCDir] is the value of [DIRENV_DIR]
    with a single leading ["-"] removed when there is one, and the value as
    it is otherwise. *)
Theorem LoadConfig_RCDir (sys : Sys) (env : env_ref) (σ : state)
    (cfg : Config) (σ' : state) :
  LoadConfig sys env σ = (Some cfg, None, σ') →
  RCDir cfg = strip_marker (getenv (heap σ) env DIRENV_DIR)
  ∧ (∀ rest, getenv (heap σ) env DIRENV_DIR = String "-"%char rest →
             RCDir cfg = rest)
  ∧ ((∀ rest, getenv (heap σ) env DIRENV_DIR ≠ String "-"%char rest) →
     RCDir cfg = getenv (heap σ) env DIRENV_DIR).
Proof.
  intros H.
  destruct (LoadConfig_ok_closed _ _ _ _ _ H)
    as (exePath & wd & file & _ & _ & _ & _ & _ & Hcfg).
  assert (Hrc : RCDir cfg = strip_marker (getenv (heap σ) env DIRENV_DIR))
    by (rewrite Hcfg; by destruct file).
  split; [done|]. rewrite Hrc. split.
  - by intros rest ->.
  - intros Hno. destruct (getenv (heap σ) env DIRENV_DIR) as [|c r]; [done|].
    cbn [strip_marker].
    destruct c as [[] [] [] [] [] [] [] []]; try done.
    by destruct (Hno r).
Qed.

(** C7.  When the TOML file sets no warning timeout (or there is no file)
    and [LoadConfig] succeeds, the timeout is the duration that
    [DIRENV_WARN_TIMEOUT] parses to; it is 5 seconds when the variable is
    unset, and 5 seconds when its value is not a duration.  A value that
    does not parse is logged and never makes [LoadConfig] fail: the error
    that [LoadConfig] returns is the same whatever the duration parser
    answers. *)
Theorem LoadConfig_WarnTimeout (sys : Sys) (env : env_ref) (σ : state)
    (cfg : Config) (σ' : state) :
  LoadConfig sys env σ = (Some cfg, None, σ') →
  (∀ t, toml_file sys (contents (heap σ) env) = Ok (Some t) →
        Toml.WarnTimeout (Toml.Global t) = 0%Z) →
  (contents (heap σ) env !! "DIRENV_WARN_TIMEOUT" = None →
   time_ParseDuration sys "5s" = Ok (5 * Second)%Z →
   WarnTimeout cfg = (5 * Second)%Z)
  ∧ (∀ s d, contents (heap σ) env !! "DIRENV_WARN_TIMEOUT" = Some s →
            time_ParseDuration sys s = Ok d →
            WarnTimeout cfg = d)
  ∧ (∀ s cause, contents (heap σ) env !! "DIRENV_WARN_TIMEOUT" = Some s →
                time_ParseDuration sys s = Err cause →
                WarnTimeout cfg = (5 * Second)%Z
                ∧ logged σ' = logged σ
                    ++ [(LevelError,
                         "invalid DIRENV_WARN_TIMEOUT: " +:+ cause)])
  ∧ (∀ parse, (LoadConfig (with_ParseDuration parse sys) env σ).1.2
              = (LoadConfig sys env σ).1.2).
Proof.
  intros H Hzero.
  destruct (LoadConfig_ok_closed _ _ _ _ _ H)
    as (exePath & wd & file & _ & _ & Hfile & Hstep & _ & _).
  assert (Hwt : WarnTimeout
                  (after_toml file
                     (located sys env (contents (heap σ) env) exePath wd))
                = 0%Z).
  { destruct file as [t|]; [|done]. cbn. by apply Hzero. }
  rewrite step_WarnTimeout_run, Hwt in Hstep. cbn [Z.eqb] in Hstep.
  injection Hstep as Hcfg Hσ.
  assert (Htimeout : WarnTimeout cfg
                     = env_timeout sys (contents (heap σ) env)).
  { done. }
  rewrite Htimeout. unfold env_timeout. clear Hcfg Htimeout.
  split; [|split; [|split]].
  - intros Hunset Hdef. by rewrite Hunset; cbn; rewrite Hdef.
  - intros s d Hs Hd. by rewrite Hs; cbn; rewrite Hd.
  - intros s cause Hs Hd. rewrite Hs in *. cbn in *. rewrite Hd in *.
    by rewrite <- Hσ.
  - intros parse. rewrite !LoadConfig_error. reflexivity.
Qed.

(** C8, as amended.  [LoadConfig] returns an error whenever the
    configuration directory (from [DIRENV_CONFIG] or the xdg fallback), the
    cache directory or the data directory cannot be resolved.  The [Config]
    pointer that the function allocated on its first line is returned
    together with the error: it is not nil, it is the configuration as far
    as it was filled in. *)
Theorem LoadConfig_unresolved_dirs (sys : Sys) (env : env_ref) (σ : state) :
  (getenv (heap σ) env DIRENV_CONFIG = "" →
   xdg_ConfigDir sys (contents (heap σ) env) "direnv" = "" →
   (LoadConfig sys env σ).1
   = (Some (set_Env env zero_Config), Some ErrNoConfigDir))
  ∧ (xdg_CacheDir sys (contents (heap σ) env) "direnv" = "" →
     is_Some (LoadConfig sys env σ).1.2)
  ∧ (xdg_DataDir sys (contents (heap σ) env) "direnv" = "" →
     is_Some (LoadConfig sys env σ).1.2)
  ∧ is_Some (LoadConfig sys env σ).1.1.
Proof.
  split; [|split; [|split]].
  - unfold getenv. intros Henv Hxdg.
    rewrite LoadConfig_runs. unfold LoadConfig_run. cbv zeta.
    rewrite step_ConfDir_eq. cbn [ConfDir set_ConfDir].
    unfold conf_dir. rewrite Henv, Hxdg. reflexivity.
  - intros Hcache. rewrite LoadConfig_error. unfold load_error.
    rewrite Hcache. repeat case_match; simplify_eq/=; eauto.
  - intros Hdata. rewrite LoadConfig_error. unfold load_error.
    rewrite Hdata. repeat case_match; simplify_eq/=; eauto.
  - destruct (LoadConfig_returns_config sys env σ) as [cfg ->]. eauto.
Qed.

(** C10.  When [LoadConfig] succeeds, the interpreter is the [bash_path] of
    the TOML file if it is set; else the value of [DIRENV_BASH] if it is
    set; else the compiled-in default if it is set; else what the search
    path gives for [bash].  [LoadConfig] returns the error "can't find bash"
    only if all four are unavailable. *)
Theorem LoadConfig_BashPath (sys : Sys) (env : env_ref) (σ : state) :
  (∀ cfg σ', LoadConfig sys env σ = (Some cfg, None, σ') →
     ∃ file, toml_file sys (contents (heap σ) env) = Ok file
       ∧ (toml_bash file ≠ "" → BashPath cfg = toml_bash file)
       ∧ (toml_bash file = "" →
          getenv (heap σ) env DIRENV_BASH ≠ "" →
          BashPath cfg = getenv (heap σ) env DIRENV_BASH)
       ∧ (toml_bash file = "" →
          getenv (heap σ) env DIRENV_BASH = "" →
          bashPath sys ≠ "" →
          BashPath cfg = bashPath sys)
       ∧ (toml_bash file = "" →
          getenv (heap σ) env DIRENV_BASH = "" →
          bashPath sys = "" →
          exec_LookPath sys "bash" = Ok (BashPath cfg)))
  ∧ (∀ cause, (LoadConfig sys env σ).1.2 = Some (ErrNoBash cause) →
     ∃ file, toml_file sys (contents (heap σ) env) = Ok file
       ∧ toml_bash file = ""
       ∧ getenv (heap σ) env DIRENV_BASH = ""
       ∧ bashPath sys = ""
       ∧ exec_LookPath sys "bash" = Err cause).
Proof.
  unfold getenv. split.
  - intros cfg σ' H.
    destruct (LoadConfig_ok_closed _ _ _ _ _ H)
      as (exePath & wd & file & _ & _ & Hfile & _ & Hchoice & _).
    exists file. split; [done|]. unfold bash_choice in Hchoice.
    destruct (String.eqb_spec (toml_bash file) "") as [Ht|Ht];
      cbn [negb] in Hchoice.
    + destruct (String.eqb_spec
                  (default "" (contents (heap σ) env !! DIRENV_BASH)) "")
        as [Hv|Hv]; cbn [negb] in Hchoice.
      * destruct (String.eqb_spec (bashPath sys) "") as [Hb|Hb];
          cbn [negb] in Hchoice.
        -- repeat split; try done.
        -- injection Hchoice as Hchoice. repeat split; try done.
      * injection Hchoice as Hchoice. repeat split; try done.
    + injection Hchoice as Hchoice. repeat split; try done.
  - intros cause H. rewrite LoadConfig_error in H. unfold load_error in H.
    destruct (String.eqb (conf_dir sys _) ""); [done|].
    destruct (os_Executable sys); [|done].
    destruct (os_Getwd sys); [|done].
    destruct (toml_file sys _) as [file|]; [|done].
    exists file. split; [done|].
    unfold bash_choice in H.
    destruct (String.eqb_spec (toml_bash file) "") as [Ht|Ht];
      cbn [negb] in H.
    + destruct (String.eqb_spec
                  (default "" (contents (heap σ) env !! DIRENV_BASH)) "")
        as [Hv|Hv]; cbn [negb] in H.
      * destruct (String.eqb_spec (bashPath sys) "") as [Hb|Hb];
          cbn [negb] in H.
        -- destruct (exec_LookPath sys "bash") as [p|c].
           ++ repeat case_match; done.
           ++ injection H as ->. done.
        -- repeat case_match; done.
      * repeat case_match; done.
    + repeat case_match; done.
Qed.


(** *** The sample run of LoadConfig *)

(** In the sample process [LoadConfig] succeeds. *)
Lemma Sample_LoadConfig :
  LoadConfig Sample.sys (Some 1%positive) Sample.store
  = (Some (default zero_Config
             (LoadConfig Sample.sys (Some 1%positive) Sample.store).1.1),
     None,
     (LoadConfig Sample.sys (Some 1%positive) Sample.store).2).
Proof. vm_compute. reflexivity. Qed.

Lemma Sample_toml_file :
  toml_file Sample.sys (contents (heap Sample.store) (Some 1%positive))
  = Ok (Some Sample.decoded).
Proof. vm_compute. reflexivity. Qed.

Lemma LoadConfig_whitelist_witness :
  ∃ cfg σ',
    LoadConfig Sample.sys (Some 1%positive) Sample.store = (Some cfg, None, σ')
    ∧ toml_file Sample.sys (contents (heap Sample.store) (Some 1%positive))
      = Ok (Some Sample.decoded)
    ∧ WhitelistPrefix cfg = ["/home/x"]
    ∧ WhitelistExact cfg !! "/home/x/.envrc" = Some true
    ∧ WhitelistExact cfg !! "/srv/app/.envrc" = Some true.
Proof.
  eexists _, _. split; [exact Sample_LoadConfig|].
  split; [exact Sample_toml_file|].
  destruct (LoadConfig_whitelist Sample.sys _ _ _ _ _
              Sample_LoadConfig Sample_toml_file)
    as (Hprefix & Hexact & _ & _).
  split; [exact Hprefix|]. split.
  - apply (Hexact "/home/x"). vm_compute. apply list_elem_of_here.
  - apply (Hexact "/srv/app/.envrc"). vm_compute.
    apply list_elem_of_further, list_elem_of_here.
Defined.

(** C4 as stated does not hold for the prefix entries.  The sample TOML file
    lists the prefix [/home/x]; [LoadConfig] stores it as [/home/x], which
    does not end in [.envrc]. *)
Lemma LoadConfig_prefix_is_kept_verbatim :
  ∃ cfg σ',
    LoadConfig Sample.sys (Some 1%positive) Sample.store = (Some cfg, None, σ')
    ∧ Toml.Prefix (Toml.Whitelist Sample.decoded) = ["/home/x"]
    ∧ WhitelistPrefix cfg = ["/home/x"]
    ∧ GoString.HasSuffix "/home/x" ".envrc" = false
    ∧ ¬ (∀ p, p ∈ WhitelistPrefix cfg → GoString.HasSuffix p ".envrc" = true).
Proof.
  eexists _, _. split; [exact Sample_LoadConfig|].
  split; [reflexivity|].
  assert (Hp : WhitelistPrefix
                 (default zero_Config
                    (LoadConfig Sample.sys (Some 1%positive) Sample.store).1.1)
               = ["/home/x"]) by (vm_compute; reflexivity).
  split; [exact Hp|]. split; [reflexivity|].
  intros Hall. rewrite Hp in Hall.
  specialize (Hall "/home/x" (list_elem_of_here _ _)).
  vm_compute in Hall. discriminate.
Qed.

Lemma LoadConfig_RCDir_witness :
  ∃ cfg σ',
    LoadConfig Sample.sys (Some 1%positive) Sample.store = (Some cfg, None, σ')
    ∧ getenv (heap Sample.store) (Some 1%positive) DIRENV_DIR = "-/proj"
    ∧ RCDir cfg = "/proj".
Proof.
  eexists _, _. split; [exact Sample_LoadConfig|].
  split; [vm_compute; reflexivity|].
  destruct (LoadConfig_RCDir Sample.sys _ _ _ _ Sample_LoadConfig)
    as (_ & Hstrip & _).
  apply Hstrip. vm_compute. reflexivity.
Defined.

Lemma LoadConfig_WarnTimeout_witness :
  ∃ cfg σ',
    LoadConfig Sample.sys (Some 1%positive) Sample.store = (Some cfg, None, σ')
    ∧ (∀ t, toml_file Sample.sys
              (contents (heap Sample.store) (Some 1%positive))
            = Ok (Some t) →
            Toml.WarnTimeout (Toml.Global t) = 0%Z)
    ∧ contents (heap Sample.store) (Some 1%positive) !! "DIRENV_WARN_TIMEOUT"
      = Some "soon"
    ∧ time_ParseDuration Sample.sys "soon"
      = Err "time: invalid duration soon"
    ∧ WarnTimeout cfg = 5000000000%Z
    ∧ logged σ'
      = [(LevelError,
          "invalid DIRENV_WARN_TIMEOUT: time: invalid duration soon")].
Proof.
  assert (Hzero : ∀ t, toml_file Sample.sys
                         (contents (heap Sample.store) (Some 1%positive))
                       = Ok (Some t) →
                       Toml.WarnTimeout (Toml.Global t) = 0%Z).
  { intros t Ht. rewrite Sample_toml_file in Ht. injection Ht as <-.
    reflexivity. }
  assert (Hs : contents (heap Sample.store) (Some 1%positive)
               !! "DIRENV_WARN_TIMEOUT" = Some "soon")
    by (vm_compute; reflexivity).
  assert (Hd : time_ParseDuration Sample.sys "soon"
               = Err "time: invalid duration soon")
    by (vm_compute; reflexivity).
  eexists _, _. split; [exact Sample_LoadConfig|].
  split; [exact Hzero|]. split; [exact Hs|]. split; [exact Hd|].
  destruct (LoadConfig_WarnTimeout Sample.sys _ _ _ _ Sample_LoadConfig Hzero)
    as (_ & _ & Hbad & _).
  destruct (Hbad _ _ Hs Hd) as [Hwt Hlog].
  split; [exact Hwt|]. rewrite Hlog. vm_compute. reflexivity.
Defined.

Lemma LoadConfig_unresolved_dirs_witness :
  getenv (heap Sample.store) (Some 2%positive) DIRENV_CONFIG = ""
  ∧ xdg_ConfigDir Sample.sys (contents (heap Sample.store) (Some 2%positive))
      "direnv" = ""
  ∧ (LoadConfig Sample.sys (Some 2%positive) Sample.store).1
    = (Some (set_Env (Some 2%positive) zero_Config), Some ErrNoConfigDir).
Proof.
  assert (Henv : getenv (heap Sample.store) (Some 2%positive) DIRENV_CONFIG
                 = "") by (vm_compute; reflexivity).
  assert (Hxdg : xdg_ConfigDir Sample.sys
                   (contents (heap Sample.store) (Some 2%positive)) "direnv"
                 = "") by (vm_compute; reflexivity).
  split; [exact Henv|]. split; [exact Hxdg|].
  exact (proj1 (LoadConfig_unresolved_dirs Sample.sys (Some 2%positive)
                  Sample.store) Henv Hxdg).
Defined.

(** C8 as stated does not hold in its last part.  The snapshot at location 2
    has neither [DIRENV_CONFIG] nor [HOME], so the configuration directory
    cannot be resolved; [LoadConfig] returns the error and, with it, the
    configuration it had started to fill in, not nil. *)
Lemma LoadConfig_error_comes_with_config :
  getenv (heap Sample.store) (Some 2%positive) DIRENV_CONFIG = ""
  ∧ xdg_ConfigDir Sample.sys (contents (heap Sample.store) (Some 2%positive))
      "direnv" = ""
  ∧ (LoadConfig Sample.sys (Some 2%positive) Sample.store).1.2
    = Some ErrNoConfigDir
  ∧ (LoadConfig Sample.sys (Some 2%positive) Sample.store).1.1
    = Some (set_Env (Some 2%positive) zero_Config)
  ∧ (LoadConfig Sample.sys (Some 2%positive) Sample.store).1.1 ≠ None.
Proof.
  repeat split; try (vm_compute; reflexivity).
  vm_compute. discriminate.
Qed.

Lemma LoadConfig_BashPath_witness :
  ∃ cfg σ',
    LoadConfig Sample.sys (Some 1%positive) Sample.store = (Some cfg, None, σ')
    ∧ getenv (heap Sample.store) (Some 1%positive) DIRENV_BASH = ""
    ∧ bashPath Sample.sys = ""
    ∧ exec_LookPath Sample.sys "bash" = Ok "/bin/bash"
    ∧ BashPath cfg = "/bin/bash".
Proof.
  eexists _, _. split; [exact Sample_LoadConfig|].
  split; [vm_compute; reflexivity|]. split; [reflexivity|].
  split; [reflexivity|].
  destruct (proj1 (LoadConfig_BashPath Sample.sys (Some 1%positive)
                     Sample.store) _ _ Sample_LoadConfig)
    as (file & Hfile & _ & _ & _ & Hlook).
  rewrite Sample_toml_file in Hfile. injection Hfile as <-.
  assert (Hp : exec_LookPath Sample.sys "bash"
               = Ok (BashPath
                       (default zero_Config
                          (LoadConfig Sample.sys (Some 1%positive)
                             Sample.store).1.1)))
    by (apply Hlook; vm_compute; reflexivity).
  exact (f_equal (λ r, match r with Ok p => p | Err _ => "" end)
           (eq_sym Hp)).
Defined.

(** ** LoadedRC *)

(** C6.  [LoadedRC] returns nil exactly when [RCDir] is empty; otherwise it
    returns the handle rebuilt from [RCDir] joined with [.envrc] and from
    the value of [DIRENV_WATCHES] in the environment of the configuration.
    The map objects are not touched. *)
Theorem LoadedRC_loaded (config : Config) (σ : state) :
  ((LoadedRC config σ).1 = None ↔ RCDir config = "")
  ∧ (RCDir config ≠ "" →
     LoadedRC config σ
     = (RCFromEnv (filepath.Join (RCDir config) ".envrc")
          (getenv (heap σ) (Env config) DIRENV_WATCHES) config, σ)
     ∧ (LoadedRC config σ).1
       = Some {| rc_path := filepath.Join (RCDir config) ".envrc";
                 rc_times := getenv (heap σ) (Env config) DIRENV_WATCHES;
                 rc_config := config |})
  ∧ heap (LoadedRC config σ).2 = heap σ.
Proof.
  run_M LoadedRC. unfold getenv.
  destruct (String.eqb_spec (RCDir config) "") as [Hnil|Hdir]; cbn [fst snd].
  - repeat split; done.
  - repeat split; done.
Qed.

Lemma LoadedRC_loaded_witness :
  RCDir (set_RCDir "/proj" Sample.config) ≠ ""
  ∧ (LoadedRC (set_RCDir "/proj" Sample.config) Sample.store).1
    = Some {| rc_path := "/proj/.envrc"; rc_times := "w1";
              rc_config := set_RCDir "/proj" Sample.config |}.
Proof.
  assert (Hdir : RCDir (set_RCDir "/proj" Sample.config) ≠ "")
    by (vm_compute; discriminate).
  split; [exact Hdir|].
  destruct (LoadedRC_loaded (set_RCDir "/proj" Sample.config) Sample.store)
    as (_ & Hsome & _).
  destruct (Hsome Hdir) as [_ ->].
  vm_compute. reflexivity.
Defined.

(** ** Further properties of LoadConfig *)

(** The state after [LoadConfig] is the state before it, or the state after
    the timeout step. *)
Lemma LoadConfig_state (sys : Sys) (env : env_ref) (σ : state) :
  (LoadConfig sys env σ).2 = σ
  ∨ ∃ c4, (LoadConfig sys env σ).2 = (step_WarnTimeout sys env c4 σ).2.
Proof.
  rewrite LoadConfig_runs. unfold LoadConfig_run. cbv zeta.
  repeat case_match; cbn [snd]; eauto.
Qed.

(** X1.  [LoadConfig] reads the environment and never writes to it: after
    every run, failed or not, each map object of the store is what it was.
    The only trace it leaves is at most one logged error, the one about an
    invalid [DIRENV_WARN_TIMEOUT]. *)
Theorem LoadConfig_reads_only (sys : Sys) (env : env_ref) (σ : state) :
  heap (LoadConfig sys env σ).2 = heap σ
  ∧ (logged (LoadConfig sys env σ).2 = logged σ
     ∨ ∃ cause,
         time_ParseDuration sys
           (default "5s" (contents (heap σ) env !! "DIRENV_WARN_TIMEOUT"))
         = Err cause
         ∧ logged (LoadConfig sys env σ).2
           = logged σ
             ++ [(LevelError, "invalid DIRENV_WARN_TIMEOUT: " +:+ cause)]).
Proof.
  destruct (LoadConfig_state sys env σ) as [->|[c4 ->]].
  - split; [done|]. by left.
  - rewrite step_WarnTimeout_run.
    destruct (Z.eqb (WarnTimeout c4) 0); cbn [snd]; [|split; [done|by left]].
    destruct (time_ParseDuration sys _) as [d|cause] eqn:Hd.
    + split; [done|]. by left.
    + split; [done|]. right. by exists cause.
Qed.

(** X2.  [LoadConfig] succeeds exactly when the configuration directory is
    resolved, the executable and the working directory are known, the TOML
    file is absent or parses, an interpreter is found, and the cache and
    data directories are resolved. *)
Theorem LoadConfig_succeeds_iff (sys : Sys) (env : env_ref) (σ : state) :
  (LoadConfig sys env σ).1.2 = None
  ↔ conf_dir sys (contents (heap σ) env) ≠ ""
    ∧ (∃ exePath, os_Executable sys = Ok exePath)
    ∧ (∃ wd, os_Getwd sys = Ok wd)
    ∧ (∃ file, toml_file sys (contents (heap σ) env) = Ok file
         ∧ ∃ p, bash_choice sys (toml_bash file)
                  (getenv (heap σ) env DIRENV_BASH) = Ok p)
    ∧ xdg_CacheDir sys (contents (heap σ) env) "direnv" ≠ ""
    ∧ xdg_DataDir sys (contents (heap σ) env) "direnv" ≠ "".
Proof.
  rewrite LoadConfig_error. unfold load_error, getenv. split.
  - intros H.
    destruct (String.eqb_spec (conf_dir sys (contents (heap σ) env)) "");
      [done|].
    destruct (os_Executable sys) as [exePath|]; [|done].
    destruct (os_Getwd sys) as [wd|]; [|done].
    destruct (toml_file sys _) as [file|]; [|done].
    destruct (bash_choice sys _ _) as [p|] eqn:Hbash; [|done].
    destruct (String.eqb_spec
                (xdg_CacheDir sys (contents (heap σ) env) "direnv") "");
      [done|].
    destruct (String.eqb_spec
                (xdg_DataDir sys (contents (heap σ) env) "direnv") "");
      [done|].
    repeat split; eauto.
  - intros (Hconf & [exePath ->] & [wd ->] & (file & -> & p & ->)
            & Hcache & Hdata).
    apply String.eqb_neq in Hconf, Hcache, Hdata.
    by rewrite Hconf, Hcache, Hdata.
Qed.

(** X3.  The checks of [LoadConfig] fail in the order of the source: the
    first thing that is missing decides the error, whatever comes after
    it. *)
Theorem LoadConfig_first_failure (sys : Sys) (env : env_ref) (σ : state) :
  (conf_dir sys (contents (heap σ) env) = "" →
   (LoadConfig sys env σ).1.2 = Some ErrNoConfigDir)
  ∧ (conf_dir sys (contents (heap σ) env) ≠ "" →
     (∀ cause, os_Executable sys = Err cause →
        (LoadConfig sys env σ).1.2 = Some (ErrExecutable cause))
     ∧ ∀ exePath, os_Executable sys = Ok exePath →
       (∀ cause, os_Getwd sys = Err cause →
          (LoadConfig sys env σ).1.2 = Some (ErrGetwd cause))
       ∧ ∀ wd, os_Getwd sys = Ok wd →
         (∀ cause, toml_file sys (contents (heap σ) env) = Err cause →
            (LoadConfig sys env σ).1.2
            = Some (ErrParse
                      (toml_path sys (conf_dir sys (contents (heap σ) env)))
                      cause))
         ∧ ∀ file, toml_file sys (contents (heap σ) env) = Ok file →
           (∀ cause, bash_choice sys (toml_bash file)
                       (getenv (heap σ) env DIRENV_BASH) = Err cause →
              (LoadConfig sys env σ).1.2 = Some (ErrNoBash cause))
           ∧ ∀ p, bash_choice sys (toml_bash file)
                    (getenv (heap σ) env DIRENV_BASH) = Ok p →
             (xdg_CacheDir sys (contents (heap σ) env) "direnv" = "" →
              (LoadConfig sys env σ).1.2 = Some ErrNoCacheDir)
             ∧ (xdg_CacheDir sys (contents (heap σ) env) "direnv" ≠ "" →
                xdg_DataDir sys (contents (heap σ) env) "direnv" = "" →
                (LoadConfig sys env σ).1.2 = Some ErrNoDataDir)).
Proof.
  rewrite LoadConfig_error. unfold load_error, getenv.
  split; [by intros ->|].
  intros Hconf%String.eqb_neq. rewrite Hconf.
  split; [by intros cause ->|]. intros exePath ->.
  split; [by intros cause ->|]. intros wd ->.
  split; [by intros cause ->|]. intros file ->.
  split; [by intros cause ->|]. intros p ->.
  split; [by intros ->|].
  intros Hcache%String.eqb_neq Hdata. by rewrite Hcache, Hdata.
Qed.

Lemma LoadConfig_first_failure_witness :
  conf_dir Sample.sys (contents (heap Sample.store) (Some 2%positive)) = ""
  ∧ (LoadConfig Sample.sys (Some 2%positive) Sample.store).1.2
    = Some ErrNoConfigDir.
Proof.
  assert (Hconf : conf_dir Sample.sys
                    (contents (heap Sample.store) (Some 2%positive)) = "")
    by (vm_compute; reflexivity).
  split; [exact Hconf|].
  exact (proj1 (LoadConfig_first_failure Sample.sys (Some 2%positive)
                  Sample.store) Hconf).
Defined.

(** X4.  On success the configuration directory is the value of
    [DIRENV_CONFIG] when that is set, as it is written, and the xdg
    directory otherwise; the cache and data directories are the xdg ones;
    none of the three is empty.  The configuration keeps the reference to
    the environment it was given, and the working directory of the
    process. *)
Theorem LoadConfig_directories (sys : Sys) (env : env_ref) (σ : state)
    (cfg : Config) (σ' : state) :
  LoadConfig sys env σ = (Some cfg, None, σ') →
  Env cfg = env
  ∧ (getenv (heap σ) env DIRENV_CONFIG ≠ "" →
     ConfDir cfg = getenv (heap σ) env DIRENV_CONFIG)
  ∧ (getenv (heap σ) env DIRENV_CONFIG = "" →
     ConfDir cfg = xdg_ConfigDir sys (contents (heap σ) env) "direnv")
  ∧ CacheDir cfg = xdg_CacheDir sys (contents (heap σ) env) "direnv"
  ∧ DataDir cfg = xdg_DataDir sys (contents (heap σ) env) "direnv"
  ∧ os_Getwd sys = Ok (WorkDir cfg)
  ∧ ConfDir cfg ≠ "" ∧ CacheDir cfg ≠ "" ∧ DataDir cfg ≠ "".
Proof.
  intros H.
  destruct (LoadConfig_ok_inv _ _ _ _ _ H)
    as (exePath' & wd' & c4' & _ & _ & _ & _ & _ & _ & Hconf & Hcache & Hdata).
  destruct (LoadConfig_ok_closed _ _ _ _ _ H)
    as (exePath & wd & file & _ & Hwd & _ & _ & _ & Hcfg).
  assert (HE : Env cfg = env) by (rewrite Hcfg; by destruct file).
  assert (HC : ConfDir cfg = conf_dir sys (contents (heap σ) env))
    by (rewrite Hcfg; by destruct file).
  assert (Hca : CacheDir cfg
                = xdg_CacheDir sys (contents (heap σ) env) "direnv")
    by (rewrite Hcfg; reflexivity).
  assert (Hda : DataDir cfg
                = xdg_DataDir sys (contents (heap σ) env) "direnv")
    by (rewrite Hcfg; reflexivity).
  assert (Hw : WorkDir cfg = wd) by (rewrite Hcfg; by destruct file).
  rewrite HC, Hca, Hda, Hw. unfold conf_dir, getenv in *.
  repeat split; try done.
  - intros Hset%String.eqb_neq. by rewrite Hset.
  - by intros ->.
Qed.

Lemma LoadConfig_directories_witness :
  ∃ cfg σ',
    LoadConfig Sample.sys (Some 1%positive) Sample.store = (Some cfg, None, σ')
    ∧ Env cfg = Some 1%positive
    ∧ ConfDir cfg = "/home/u/.config/direnv"
    ∧ CacheDir cfg = "/home/u/.cache/direnv"
    ∧ DataDir cfg = "/home/u/.local/share/direnv".
Proof.
  eexists _, _. split; [exact Sample_LoadConfig|].
  destruct (LoadConfig_directories Sample.sys _ _ _ _ Sample_LoadConfig)
    as (HE & _ & HC & Hca & Hda & _).
  split; [exact HE|]. split.
  - rewrite HC by (vm_compute; reflexivity). vm_compute. reflexivity.
  - split; [rewrite Hca|rewrite Hda]; vm_compute; reflexivity.
Defined.

(** X5.  On success the TOML file is [direnv.toml] in the configuration
    directory when that file exists, else [config.toml] when that exists,
    else there is none; a file that was chosen has been decoded without
    error. *)
Theorem LoadConfig_TomlPath (sys : Sys) (env : env_ref) (σ : state)
    (cfg : Config) (σ' : state) :
  LoadConfig sys env σ = (Some cfg, None, σ') →
  (os_Stat sys (filepath.Join (ConfDir cfg) "direnv.toml") = true →
   TomlPath cfg = filepath.Join (ConfDir cfg) "direnv.toml")
  ∧ (os_Stat sys (filepath.Join (ConfDir cfg) "direnv.toml") = false →
     os_Stat sys (filepath.Join (ConfDir cfg) "config.toml") = true →
     TomlPath cfg = filepath.Join (ConfDir cfg) "config.toml")
  ∧ (os_Stat sys (filepath.Join (ConfDir cfg) "direnv.toml") = false →
     os_Stat sys (filepath.Join (ConfDir cfg) "config.toml") = false →
     TomlPath cfg = "")
  ∧ (TomlPath cfg ≠ "" → ∃ t, toml_DecodeFile sys (TomlPath cfg) = Ok t).
Proof.
  intros H.
  destruct (LoadConfig_ok_closed _ _ _ _ _ H)
    as (exePath & wd & file & _ & _ & Hfile & _ & _ & Hcfg).
  assert (HC : ConfDir cfg = conf_dir sys (contents (heap σ) env))
    by (rewrite Hcfg; by destruct file).
  assert (HT : TomlPath cfg = toml_path sys (ConfDir cfg))
    by (rewrite HC, Hcfg; by destruct file).
  split; [|split; [|split]].
  - intros Hd. rewrite HT at 1. unfold toml_path. by rewrite Hd.
  - intros Hd Hc. rewrite HT at 1. unfold toml_path. by rewrite Hd, Hc.
  - intros Hd Hc. rewrite HT at 1. unfold toml_path. by rewrite Hd, Hc.
  - intros Hp. unfold toml_file in Hfile. rewrite <- HC, <- HT in Hfile.
    apply String.eqb_neq in Hp. rewrite Hp in Hfile.
    destruct (toml_DecodeFile sys (TomlPath cfg)) as [t|]; [eauto|done].
Qed.

Lemma LoadConfig_TomlPath_witness :
  ∃ cfg σ',
    LoadConfig Sample.sys (Some 1%positive) Sample.store = (Some cfg, None, σ')
    ∧ os_Stat Sample.sys (filepath.Join (ConfDir cfg) "direnv.toml") = true
    ∧ TomlPath cfg = "/home/u/.config/direnv/direnv.toml".
Proof.
  eexists _, _. split; [exact Sample_LoadConfig|].
  assert (Hstat : os_Stat Sample.sys
                    (filepath.Join
                       (ConfDir
                          (default zero_Config
                             (LoadConfig Sample.sys (Some 1%positive)
                                Sample.store).1.1))
                       "direnv.toml") = true)
    by (vm_compute; reflexivity).
  split; [exact Hstat|].
  destruct (LoadConfig_TomlPath Sample.sys _ _ _ _ Sample_LoadConfig)
    as (Hdirenv & _).
  rewrite (Hdirenv Hstat). vm_compute. reflexivity.
Defined.

(** X6.  [LoadConfig] decodes at most one file, the one it chose: a decoder
    that agrees with the present one on that file gives the same run,
    whatever it answers for every other path. *)
Theorem LoadConfig_decodes_chosen_file (sys : Sys) (env : env_ref) (σ : state)
    (decode : string → result Toml.tomlConfig) :
  (toml_path sys (conf_dir sys (contents (heap σ) env)) ≠ "" →
   decode (toml_path sys (conf_dir sys (contents (heap σ) env)))
   = toml_DecodeFile sys (toml_path sys (conf_dir sys (contents (heap σ) env)))) →
  LoadConfig (with_DecodeFile decode sys) env σ = LoadConfig sys env σ.
Proof.
  intros Hsame. rewrite !LoadConfig_runs. unfold LoadConfig_run. cbv zeta.
  change (step_ConfDir (with_DecodeFile decode sys))
    with (step_ConfDir sys).
  change (os_Executable (with_DecodeFile decode sys))
    with (os_Executable sys).
  change (os_Getwd (with_DecodeFile decode sys)) with (os_Getwd sys).
  change (step_RCDir (with_DecodeFile decode sys)) with (step_RCDir sys).
  change (step_WarnTimeout (with_DecodeFile decode sys))
    with (step_WarnTimeout sys).
  change (step_BashPath (with_DecodeFile decode sys))
    with (step_BashPath sys).
  change (step_CacheDir (with_DecodeFile decode sys))
    with (step_CacheDir sys).
  change (step_DataDir (with_DecodeFile decode sys))
    with (step_DataDir sys).
  destruct (String.eqb _ ""); [done|].
  destruct (os_Executable sys) as [exePath|]; [|done].
  destruct (os_Getwd sys) as [wd|]; [|done].
  rewrite !located_eq.
  assert (Htoml : step_toml (with_DecodeFile decode sys)
                    (located sys env (contents (heap σ) env) exePath wd)
                  = step_toml sys
                      (located sys env (contents (heap σ) env) exePath wd)).
  { unfold step_toml.
    cbn [TomlPath located set_TomlPath toml_DecodeFile with_DecodeFile].
    destruct (String.eqb_spec
                (toml_path sys (conf_dir sys (contents (heap σ) env))) "")
      as [Hp|Hp]; [done|].
    cbn [negb]. by rewrite (Hsame Hp). }
  by rewrite Htoml.
Qed.

Lemma LoadConfig_decodes_chosen_file_witness :
  LoadConfig
    (with_DecodeFile
       (λ p, if String.eqb p "/home/u/.config/direnv/direnv.toml"
             then Ok Sample.decoded else Err "no such file")
       Sample.sys)
    (Some 1%positive) Sample.store
  = LoadConfig Sample.sys (Some 1%positive) Sample.store.
Proof.
  apply LoadConfig_decodes_chosen_file.
  intros _. vm_compute. reflexivity.
Defined.

(** X7.  A warning timeout that the TOML file sets to something other than
    zero wins: the configuration has that timeout, [DIRENV_WARN_TIMEOUT] is
    not parsed and nothing is logged, so the state is left as it was. *)
Theorem LoadConfig_toml_timeout_wins (sys : Sys) (env : env_ref) (σ : state)
    (cfg : Config) (σ' : state) (t : Toml.tomlConfig) :
  LoadConfig sys env σ = (Some cfg, None, σ') →
  toml_file sys (contents (heap σ) env) = Ok (Some t) →
  Toml.WarnTimeout (Toml.Global t) ≠ 0%Z →
  WarnTimeout cfg = Toml.WarnTimeout (Toml.Global t) ∧ σ' = σ.
Proof.
  intros H Ht Hnz.
  destruct (LoadConfig_ok_closed _ _ _ _ _ H)
    as (exePath & wd & file & _ & _ & Hfile & Hstep & _ & _).
  rewrite Ht in Hfile. injection Hfile as <-.
  rewrite step_WarnTimeout_run in Hstep.
  cbn [after_toml with_toml WarnTimeout set_WarnTimeout] in Hstep.
  apply Z.eqb_neq in Hnz. rewrite Hnz in Hstep.
  injection Hstep as Hcfg Hσ. split; [|done].
  by rewrite Hcfg at 1.
Qed.

(** X8.  On success the switches and the whitelists come from the TOML
    file and from nowhere else: with a file they are what the file says;
    without one the switches are off and both whitelists are empty. *)
Theorem LoadConfig_settings (sys : Sys) (env : env_ref) (σ : state)
    (cfg : Config) (σ' : state) :
  LoadConfig sys env σ = (Some cfg, None, σ') →
  (∀ t, toml_file sys (contents (heap σ) env) = Ok (Some t) →
     BashBuiltin cfg = Toml.BashBuiltin (Toml.Global t)
     ∧ DisableStdin cfg = Toml.DisableStdin (Toml.Global t)
     ∧ StrictEnv cfg = Toml.StrictEnv (Toml.Global t))
  ∧ (toml_file sys (contents (heap σ) env) = Ok None →
     BashBuiltin cfg = false ∧ DisableStdin cfg = false
     ∧ StrictEnv cfg = false
     ∧ WhitelistPrefix cfg = [] ∧ WhitelistExact cfg = ∅
     ∧ TomlPath cfg = "").
Proof.
  intros H.
  destruct (LoadConfig_ok_closed _ _ _ _ _ H)
    as (exePath & wd & file & _ & _ & Hfile & _ & _ & Hcfg).
  rewrite Hfile. split.
  - intros t [= ->]. by rewrite Hcfg.
  - intros [= ->]. rewrite Hcfg. cbn.
    repeat split; try done.
    unfold toml_file in Hfile.
    destruct (String.eqb_spec
                (toml_path sys (conf_dir sys (contents (heap σ) env))) "")
      as [Hp|Hp]; [done|].
    by destruct (toml_DecodeFile sys _).
Qed.

Lemma Sample2_LoadConfig :
  LoadConfig Sample2.sys (Some 1%positive) Sample.store
  = (Some (default zero_Config
             (LoadConfig Sample2.sys (Some 1%positive) Sample.store).1.1),
     None,
     (LoadConfig Sample2.sys (Some 1%positive) Sample.store).2).
Proof. vm_compute. reflexivity. Qed.

Lemma Sample2_toml_file :
  toml_file Sample2.sys (contents (heap Sample.store) (Some 1%positive))
  = Ok (Some Sample2.decoded).
Proof. vm_compute. reflexivity. Qed.

Lemma LoadConfig_toml_timeout_wins_witness :
  ∃ cfg σ',
    LoadConfig Sample2.sys (Some 1%positive) Sample.store
      = (Some cfg, None, σ')
    ∧ toml_file Sample2.sys (contents (heap Sample.store) (Some 1%positive))
      = Ok (Some Sample2.decoded)
    ∧ Toml.WarnTimeout (Toml.Global Sample2.decoded) ≠ 0%Z
    ∧ WarnTimeout cfg = 30000000000%Z
    ∧ σ' = Sample.store.
Proof.
  assert (Hnz : Toml.WarnTimeout (Toml.Global Sample2.decoded) ≠ 0%Z)
    by (vm_compute; discriminate).
  eexists _, _. split; [exact Sample2_LoadConfig|].
  split; [exact Sample2_toml_file|]. split; [exact Hnz|].
  exact (LoadConfig_toml_timeout_wins Sample2.sys _ _ _ _ _
           Sample2_LoadConfig Sample2_toml_file Hnz).
Defined.

Lemma LoadConfig_settings_witness :
  ∃ cfg σ',
    LoadConfig Sample2.sys (Some 1%positive) Sample.store
      = (Some cfg, None, σ')
    ∧ toml_file Sample2.sys (contents (heap Sample.store) (Some 1%positive))
      = Ok (Some Sample2.decoded)
    ∧ BashBuiltin cfg = true ∧ DisableStdin cfg = false
    ∧ StrictEnv cfg = true.
Proof.
  eexists _, _. split; [exact Sample2_LoadConfig|].
  split; [exact Sample2_toml_file|].
  exact (proj1 (LoadConfig_settings Sample2.sys _ _ _ _ Sample2_LoadConfig)
           _ Sample2_toml_file).
Defined.

(** ** Bytes of a string *)






(** ** Rooted paths *)

Lemma JoinSlash_snoc_slash (l : list string) (x : string) :
  ∃ q, "/" +:+ GoString.JoinSlash (l ++ [x]) = q +:+ "/" +:+ x.
Proof.
  induction l as [|y l [q IH]].
  - by exists "".
  - exists ("/" +:+ y +:+ q). cbn [app GoString.JoinSlash].
    destruct (l ++ [x]) eqn:E; [by destruct l|].
    rewrite IH. by rewrite !GoStringFacts.append_assoc.
Qed.

(** Joining a proper element to a rooted path gives a rooted path that ends
    in a slash and that element. *)
Lemma Join_last_rooted (a e : string) :
  rooted a = true →
  GoString.SplitSlash e = [e] → e ≠ "" → e ≠ "." → e ≠ ".." →
  ∃ q, filepath.Join a e = q +:+ "/" +:+ e
       ∧ rooted (filepath.Join a e) = true.
Proof.
  intros Ha Hsplit He1 He2 He3.
  destruct a as [|c a]; [done|]. cbn [rooted] in Ha.
  unfold filepath.Join. cbn [String.eqb].
  rewrite GoStringFacts.append_cons. unfold filepath.Clean.
  rewrite <- GoStringFacts.append_cons.
  rewrite GoStringFacts.SplitSlash_append, Hsplit, fold_left_app.
  cbn [fold_left]. rewrite Ha.
  set (out := fold_left (filepath.clean_elem true)
                (GoString.SplitSlash (String c a)) []).
  unfold filepath.clean_elem.
  apply String.eqb_neq in He1, He2, He3. rewrite He1, He2, He3.
  cbn [rev].
  destruct (JoinSlash_snoc_slash (rev out) e) as [q Hq].
  exists q. split; [exact Hq|]. reflexivity.
Qed.



(** X11.  For an absolute whitelist entry the key that [LoadConfig] stores
    ends in [/.envrc], and storing the key again gives the same key: a
    whitelist written back in its stored form loads to the same set. *)
Theorem exact_key_absolute (path : string) :
  rooted path = true →
  GoString.HasSuffix (exact_key path) "/.envrc" = true
  ∧ exact_key (exact_key path) = exact_key path
  ∧ ∀ exact, add_exact (add_exact exact path) (exact_key path)
             = add_exact exact path.
Proof.
  intros Hr.
  assert (Hs : GoString.HasSuffix (exact_key path) "/.envrc" = true).
  { unfold exact_key.
    destruct (GoString.HasSuffix path "/.envrc") eqn:E; [done|].
    destruct (Join_last_rooted path ".envrc" Hr) as (q & -> & _);
      try done.
    change (q +:+ "/" +:+ ".envrc") with (q +:+ "/.envrc").
    apply GoStringFacts.HasSuffix_append. }
  assert (Hk : exact_key (exact_key path) = exact_key path).
  { unfold exact_key at 1. by rewrite Hs. }
  split; [done|]. split; [done|].
  intros exact. rewrite !add_exact_eq, Hk. apply insert_insert_eq.
Qed.

Lemma exact_key_absolute_witness :
  rooted "/home/x" = true
  ∧ exact_key "/home/x" = "/home/x/.envrc"
  ∧ exact_key (exact_key "/home/x") = exact_key "/home/x".
Proof.
  assert (Hr : rooted "/home/x" = true) by reflexivity.
  split; [exact Hr|]. split; [vm_compute; reflexivity|].
  exact (proj1 (proj2 (exact_key_absolute "/home/x" Hr))).
Defined.

(** ** LoadConfig followed by LoadedRC and Revert *)

(** X12.  After a successful [LoadConfig], a [DIRENV_DIR] that is unset,
    empty or the bare marker ["-"] means that no script is loaded:
    [LoadedRC] returns nil and logs that [RCDir] is blank.  With any other
    value [LoadedRC] logs nothing and leaves the state as it is. *)
Theorem LoadConfig_LoadedRC (sys : Sys) (env : env_ref) (σ : state)
    (cfg : Config) (σ' : state) :
  LoadConfig sys env σ = (Some cfg, None, σ') →
  (getenv (heap σ) env DIRENV_DIR = ""
   ∨ getenv (heap σ) env DIRENV_DIR = "-" →
   LoadedRC cfg σ'
   = (None,
      State (heap σ')
            (logged σ' ++ [(LevelDebug, "RCDir is blank - loadedRC is nil")])))
  ∧ (getenv (heap σ) env DIRENV_DIR ≠ "" →
     getenv (heap σ) env DIRENV_DIR ≠ "-" →
     (LoadedRC cfg σ').2 = σ').
Proof.
  intros H.
  destruct (LoadConfig_ok_closed _ _ _ _ _ H)
    as (exePath & wd & file & _ & _ & _ & _ & _ & Hcfg).
  assert (Hrc : RCDir cfg = strip_marker (getenv (heap σ) env DIRENV_DIR))
    by (rewrite Hcfg; by destruct file).
  run_M LoadedRC. rewrite Hrc. split.
  - by intros [->| ->].
  - intros Hne Hmark.
    destruct (getenv (heap σ) env DIRENV_DIR) as [|c r]; [done|].
    destruct (String.eqb_spec (strip_marker (String c r)) "") as [Hs|Hs];
      [|done].
    exfalso. cbn [strip_marker] in Hs.
    destruct c as [[] [] [] [] [] [] [] []]; try done.
    by subst r.
Qed.

Lemma LoadConfig_LoadedRC_witness :
  ∃ cfg σ',
    LoadConfig Sample.sys (Some 4%positive) Sample.store = (Some cfg, None, σ')
    ∧ getenv (heap Sample.store) (Some 4%positive) DIRENV_DIR = ""
    ∧ (LoadedRC cfg σ').1 = None.
Proof.
  assert (H : LoadConfig Sample.sys (Some 4%positive) Sample.store
              = (Some (default zero_Config
                         (LoadConfig Sample.sys (Some 4%positive)
                            Sample.store).1.1),
                 None,
                 (LoadConfig Sample.sys (Some 4%positive) Sample.store).2))
    by (vm_compute; reflexivity).
  assert (Hdir : getenv (heap Sample.store) (Some 4%positive) DIRENV_DIR = "")
    by (vm_compute; reflexivity).
  eexists _, _. split; [exact H|]. split; [exact Hdir|].
  by rewrite (proj1 (LoadConfig_LoadedRC Sample.sys _ _ _ _ H) (or_introl Hdir)).
Defined.

(** X13.  [Revert] fails exactly when a diff is recorded and it does not
    decode; the error is the decoder's, and whether [Revert] fails does not
    depend on the environment it is asked to revert. *)
Theorem Revert_fails_iff (sys : Sys) (config : Config) (env : env_ref)
    (σ : state) (err : error) :
  ((Revert sys config env σ).1.2 = Some err
   ↔ recorded_diff (heap σ) config ≠ ""
     ∧ ∃ cause, LoadEnvDiff sys (recorded_diff (heap σ) config) = Err cause
                ∧ err = ErrDiff cause)
  ∧ ∀ env', (Revert sys config env' σ).1.2 = (Revert sys config env σ).1.2.
Proof.
  assert (Herr : ∀ e : env_ref,
            (Revert sys config e σ).1.2
            = if String.eqb (recorded_diff (heap σ) config) "" then None
              else match LoadEnvDiff sys (recorded_diff (heap σ) config) with
                   | Ok _ => None
                   | Err cause => Some (ErrDiff cause)
                   end).
  { intros e.
    destruct (String.eqb_spec (recorded_diff (heap σ) config) "") as [Hd|Hd].
    - by rewrite Revert_no_diff.
    - destruct (LoadEnvDiff sys (recorded_diff (heap σ) config))
        as [d|cause] eqn:Hl.
      + by rewrite (Revert_decoded _ _ _ _ d).
      + by rewrite (Revert_undecodable _ _ _ _ cause). }
  split; [|intros env'; by rewrite !Herr].
  rewrite Herr.
  destruct (String.eqb_spec (recorded_diff (heap σ) config) "") as [Hd|Hd].
  - split; [done|]. by intros [? _].
  - destruct (LoadEnvDiff sys (recorded_diff (heap σ) config))
      as [d|cause].
    + split; [done|]. by intros (_ & cause & ? & _).
    + split.
      * intros [= <-]. eauto.
      * by intros (_ & c & [= ->] & ->).
Qed.

(** X14.  The configuration that [LoadConfig] returns keeps the reference
    to the environment it read, and [LoadConfig] changes no map object; so
    the diff that a later [Revert] consults is the [DIRENV_DIFF] of that
    environment.  With none recorded there, [Revert] of any environment
    succeeds with a copy of it; with one that does not decode, it fails
    with the decoder's error and changes nothing. *)
Theorem LoadConfig_then_Revert (sys : Sys) (env : env_ref) (σ : state)
    (cfg : Config) (σ' : state) :
  LoadConfig sys env σ = (Some cfg, None, σ') →
  recorded_diff (heap σ') cfg = getenv (heap σ) env DIRENV_DIFF
  ∧ (getenv (heap σ) env DIRENV_DIFF = "" →
     ∀ e, ∃ l σ'', Revert sys cfg e σ' = (Some l, None, σ'')
                   ∧ contents (heap σ'') (Some l) = contents (heap σ') e)
  ∧ (∀ cause, getenv (heap σ) env DIRENV_DIFF ≠ "" →
       LoadEnvDiff sys (getenv (heap σ) env DIRENV_DIFF) = Err cause →
       ∀ e, Revert sys cfg e σ' = (None, Some (ErrDiff cause), σ')).
Proof.
  intros H.
  destruct (LoadConfig_ok_closed _ _ _ _ _ H)
    as (exePath & wd & file & _ & _ & _ & _ & _ & Hcfg).
  assert (HE : Env cfg = env) by (rewrite Hcfg; by destruct file).
  assert (Hheap : heap σ' = heap σ).
  { pose proof (LoadConfig_heap sys env σ) as Hh. by rewrite H in Hh. }
  assert (Hrec : recorded_diff (heap σ') cfg
                 = getenv (heap σ) env DIRENV_DIFF)
    by (unfold recorded_diff, getenv; by rewrite HE, Hheap).
  split; [done|]. rewrite <- Hrec. split.
  - intros Hnone e. eexists _, _. split; [by apply Revert_no_diff|].
    cbn [heap]. apply contents_alloc.
  - intros cause Hne Hd e. by apply Revert_undecodable.
Qed.

Lemma LoadConfig_then_Revert_witness :
  ∃ cfg σ',
    LoadConfig Sample.sys (Some 4%positive) Sample.store = (Some cfg, None, σ')
    ∧ getenv (heap Sample.store) (Some 4%positive) DIRENV_DIFF = ""
    ∧ ∃ l σ'', Revert Sample.sys cfg (Some 2%positive) σ'
               = (Some l, None, σ'')
               ∧ contents (heap σ'') (Some l)
                 = contents (heap σ') (Some 2%positive).
Proof.
  assert (H : LoadConfig Sample.sys (Some 4%positive) Sample.store
              = (Some (default zero_Config
                         (LoadConfig Sample.sys (Some 4%positive)
                            Sample.store).1.1),
                 None,
                 (LoadConfig Sample.sys (Some 4%positive) Sample.store).2))
    by (vm_compute; reflexivity).
  assert (Hd : getenv (heap Sample.store) (Some 4%positive) DIRENV_DIFF = "")
    by (vm_compute; reflexivity).
  eexists _, _. split; [exact H|]. split; [exact Hd|].
  exact (proj1 (proj2 (LoadConfig_then_Revert Sample.sys _ _ _ _ H))
           Hd (Some 2%positive)).
Defined.

(** X15.  A TOML file that does not parse is fatal and contributes nothing:
    the error names the file that was chosen and carries the decoder's
    message, and the configuration returned with it has no whitelist entry,
    no interpreter, no timeout and every switch off. *)
Theorem LoadConfig_parse_error (sys : Sys) (env : env_ref) (σ : state)
    (cfg : Config) (path cause : string) :
  (LoadConfig sys env σ).1 = (Some cfg, Some (ErrParse path cause)) →
  path = TomlPath cfg ∧ path ≠ ""
  ∧ toml_DecodeFile sys path = Err cause
  ∧ WhitelistPrefix cfg = [] ∧ WhitelistExact cfg = ∅
  ∧ BashPath cfg = "" ∧ WarnTimeout cfg = 0%Z
  ∧ BashBuiltin cfg = false ∧ DisableStdin cfg = false
  ∧ StrictEnv cfg = false
  ∧ (LoadConfig sys env σ).2 = σ.
Proof.
  rewrite LoadConfig_runs. unfold LoadConfig_run. cbv zeta.
  destruct (String.eqb _ ""); [done|].
  destruct (os_Executable sys) as [exePath|]; [|done].
  destruct (os_Getwd sys) as [wd|]; [|done].
  rewrite located_eq.
  destruct (step_toml sys _) as [c4|err] eqn:Htoml.
  - destruct (step_BashPath sys _ _) as [c6|err] eqn:Hbash.
    + repeat case_match; done.
    + apply step_BashPath_fails in Hbash as (c & -> & _). done.
  - cbn [fst snd]. intros [= <- ->].
    unfold step_toml in Htoml.
    destruct (String.eqb_spec
                (TomlPath
                   (located sys env (contents (heap σ) env) exePath wd)) "")
      as [Hp|Hp]; [done|].
    cbn [negb] in Htoml.
    destruct (toml_DecodeFile sys _) as [t|e] eqn:Hd; [done|].
    injection Htoml as <- <-. repeat split; done.
Qed.

Lemma LoadConfig_parse_error_witness :
  ∃ cfg,
    (LoadConfig (with_DecodeFile (λ _, Err "bad key") Sample.sys)
       (Some 1%positive) Sample.store).1
    = (Some cfg,
       Some (ErrParse "/home/u/.config/direnv/direnv.toml" "bad key"))
    ∧ TomlPath cfg = "/home/u/.config/direnv/direnv.toml"
    ∧ WhitelistPrefix cfg = [] ∧ BashPath cfg = "".
Proof.
  assert (H : (LoadConfig (with_DecodeFile (λ _, Err "bad key") Sample.sys)
                 (Some 1%positive) Sample.store).1
              = (Some (default zero_Config
                         (LoadConfig
                            (with_DecodeFile (λ _, Err "bad key") Sample.sys)
                            (Some 1%positive) Sample.store).1.1),
                 Some (ErrParse "/home/u/.config/direnv/direnv.toml"
                         "bad key")))
    by (vm_compute; reflexivity).
  eexists. split; [exact H|].
  destruct (LoadConfig_parse_error _ _ _ _ _ _ H)
    as (Hpath & _ & _ & Hp & _ & Hb & _).
  split; [by rewrite <- Hpath|]. by split.
Defined.
